(** * A shallow embedding of the origami-media resolution pipeline

    The Python sources modelled here are
    - [origami_media/services/native.py]        ([Native.client_download],
      [_is_image_magic_number] and the file helpers),
    - [origami_media/services/ffmpeg.py]        (the parts the pipeline calls),
    - [origami_media/services/ytdlp.py]         (command building and execution),
    - [origami_media/handler_utils/media_processor.py] ([MediaProcessor]),
    - [origami_media/handlers/media_handler.py] ([MediaHandler.preprocess],
      [MediaHandler.process], [_upload_media]) and the query path of
      [origami_media/handlers/command_handler.py] ([_process_query]),
    - [origami_media/workers/preprocess_worker.py] and the queue built in
      [origami_media/dispatchers/manager.py].

    Coroutines are modelled in a writer/exception monad [M]: a computation
    returns the list of observable effects it performed (HTTP requests, file
    accesses, child processes, sleeps) together with either a Python
    exception or a value.  Everything outside the process (HTTP server,
    yt-dlp, ffmpeg, libmagic, the file system) is an oracle in the record
    [env]. *)

From Stdlib Require Import String Ascii List ZArith Bool Lia.
Import ListNotations.

Open Scope Z_scope.

(** ** Python values *)

(** A Python [str] is a list of code points. *)
Definition pystr := list Z.

(** String literals of the source, written as ASCII. *)
Definition u (s : string) : pystr :=
  map (fun a => Z.of_nat (nat_of_ascii a)) (list_ascii_of_string s).

(** A Python [bytes] object. *)
Definition bytes := list Byte.byte.

Definition pystr_eqb (a b : pystr) : bool :=
  if list_eq_dec Z.eq_dec a b then true else false.

(** Truthiness of a [str] and of an optional [str] ([None] is falsy). *)
Definition truthy_str (s : pystr) : bool :=
  match s with [] => false | _ => true end.

Definition truthy_opt_str (o : option pystr) : bool :=
  match o with Some s => truthy_str s | None => false end.

(** Truthiness of an optional number ([None] and [0] are falsy). *)
Definition truthy_opt_num (o : option Z) : bool :=
  match o with Some n => negb (n =? 0) | None => false end.

(** [str(x)] for a value that may be [None]. *)
Definition py_str_opt (o : option pystr) : pystr :=
  match o with Some s => s | None => u "None" end.

(** Truthiness of [dict.get(k)] for a boolean entry: a missing key gives
    [None], which is falsy. *)
Definition py_get_flag (o : option bool) : bool :=
  match o with Some b => b | None => false end.

(** [dict.get(k, default)] when the key may be missing. *)
Definition get_default {A} (o : option A) (d : A) : A :=
  match o with Some a => a | None => d end.

Fixpoint py_startswith (p s : pystr) : bool :=
  match p, s with
  | [], _ => true
  | c :: p', d :: s' => (c =? d) && py_startswith p' s'
  | _ :: _, [] => false
  end.

(** [needle in hay] for strings. *)
Fixpoint py_contains (needle hay : pystr) : bool :=
  py_startswith needle hay ||
  match hay with [] => false | _ :: hay' => py_contains needle hay' end.

(** [str.isspace] of one code point (Python's Unicode white space). *)
Definition py_isspace (c : Z) : bool :=
  ((9 <=? c) && (c <=? 13)) || ((28 <=? c) && (c <=? 32)) ||
  (c =? 133) || (c =? 160) || (c =? 5760) ||
  ((8192 <=? c) && (c <=? 8202)) || (c =? 8232) || (c =? 8233) ||
  (c =? 8239) || (c =? 8287) || (c =? 12288).

Fixpoint lstrip_by (p : Z -> bool) (s : pystr) : pystr :=
  match s with [] => [] | c :: s' => if p c then lstrip_by p s' else s end.

(** [s.strip(chars)] removes leading and trailing characters satisfying [p]. *)
Definition strip_by (p : Z -> bool) (s : pystr) : pystr :=
  rev (lstrip_by p (rev (lstrip_by p s))).

(** [s.strip()] *)
Definition py_strip (s : pystr) : pystr := strip_by py_isspace s.

(** [s.split(sep)] for a one-character separator. *)
Fixpoint py_split_aux (sep : Z) (s : pystr) (cur : pystr) : list pystr :=
  match s with
  | [] => [rev cur]
  | c :: s' =>
      if c =? sep then rev cur :: py_split_aux sep s' []
      else py_split_aux sep s' (c :: cur)
  end.

Definition py_split (sep : Z) (s : pystr) : list pystr := py_split_aux sep s [].

(** [s.split(sep, 1)] unpacked into two names: [None] when Python's
    tuple unpacking raises [ValueError]. *)
Fixpoint split_once (sep : Z) (s : pystr) : option (pystr * pystr) :=
  match s with
  | [] => None
  | c :: s' =>
      if c =? sep then Some ([], s')
      else match split_once sep s' with
           | Some (a, b) => Some (c :: a, b)
           | None => None
           end
  end.

Fixpoint py_join (sep : pystr) (l : list pystr) : pystr :=
  match l with
  | [] => []
  | [x] => x
  | x :: l' => x ++ sep ++ py_join sep l'
  end.

(** [str.lower] on the ASCII letters. *)
Definition py_lower (s : pystr) : pystr :=
  map (fun c => if (65 <=? c) && (c <=? 90) then c + 32 else c) s.

(** [l[-2:]] *)
Definition last_two {A} (l : list A) : list A := skipn (length l - 2) l.

(** [d.get(k)] on a dict kept as an association list (keys unique). *)
Fixpoint dict_get {V} (k : pystr) (d : list (pystr * V)) : option V :=
  match d with
  | [] => None
  | (k', v) :: d' => if pystr_eqb k k' then Some v else dict_get k d'
  end.

(** ** Exceptions, effects and the monad *)

Inductive exn : Type :=
| Exception (msg : pystr)         (* a plain [Exception(...)] *)
| RuntimeError
| ValueError
| KeyError
| TypeError
| AttributeError
| UnboundLocalError
| FileNotFoundError
| TimeoutError
| QueueFull
| DownloadSizeExceededError.

Definition exn_eqb (a b : exn) : bool :=
  match a, b with
  | Exception m, Exception m' => pystr_eqb m m'
  | RuntimeError, RuntimeError | ValueError, ValueError
  | KeyError, KeyError | TypeError, TypeError
  | AttributeError, AttributeError | UnboundLocalError, UnboundLocalError
  | FileNotFoundError, FileNotFoundError | TimeoutError, TimeoutError
  | QueueFull, QueueFull
  | DownloadSizeExceededError, DownloadSizeExceededError => true
  | _, _ => false
  end.

(** Observable effects. *)
Inductive event : Type :=
| EvHttpGet (url : pystr) (attempt : nat)   (* [self.http.get(url, ...)] *)
| EvHttpChunk (size : nat)                  (* one chunk of [iter_chunked] *)
| EvSleep (seconds : Z)                     (* [asyncio.sleep] *)
| EvFileExists (path : pystr)
| EvFileRead (path : pystr)
| EvFileWrite (path : pystr)
| EvMakedirs (path : pystr)
| EvCleanup (path : pystr)
| EvSpawn (cmd : pystr)                     (* [create_subprocess_shell] *)
| EvKill (cmd : pystr)
| EvFfmpeg (what : pystr).                  (* an ffmpeg/ffprobe child *)

Definition M (A : Type) : Type := (list event * (exn + A))%type.

Definition ret {A} (a : A) : M A := ([], inr a).

Definition bind {A B} (m : M A) (f : A -> M B) : M B :=
  match m with
  | (l, inl e) => (l, inl e)
  | (l, inr a) => let (l', r) := f a in (l ++ l', r)
  end.

Definition raise {A} (e : exn) : M A := ([], inl e).

Definition emit (ev : event) : M unit := ([ev], inr tt).

(** [try: m  except Exception as e: h(e)] *)
Definition try_except {A} (m : M A) (h : exn -> M A) : M A :=
  match m with
  | (l, inl e) => let (l', r) := h e in (l ++ l', r)
  | (l, inr a) => (l, inr a)
  end.

(** [try: m  finally: fin] *)
Definition try_finally {A} (m : M A) (fin : M unit) : M A :=
  let (l, r) := m in
  let (l', r') := fin in
  (l ++ l', match r' with inl e => inl e | inr _ => r end).

Notation "'let*' x ':=' c 'in' k" := (bind c (fun x => k))
  (at level 200, x name, c at level 100, k at level 200).
Notation "'let*' ' p ':=' c 'in' k" := (bind c (fun x => match x with p => k end))
  (at level 200, p pattern, c at level 100, k at level 200).
Notation "c ;; k" := (bind c (fun _ : unit => k)) (at level 100, right associativity).

(** Raise [KeyError] for a missing [d["key"]]. *)
Definition get_key {A} (o : option A) : M A :=
  match o with Some a => ret a | None => raise KeyError end.

(** ** Configuration *)

(** One entry of [config.platform_configs] (a non-empty dict).  An
    [option] field is a key that may be missing: [Native.client_download]
    subscripts [enable_proxy], [enable_custom_user_agent] and
    [custom_user_agent] with no default, the other readers use [.get]. *)
Record platform_config : Type := {
  pc_name : pystr;
  pc_ytdlp : bool;
  pc_ytdlp_formats : list pystr;
  pc_enable_proxy : option bool;
  pc_proxy : option pystr;
  pc_enable_custom_user_agent : option bool;
  pc_custom_user_agent : option pystr;
  pc_enable_cookies : bool;
  pc_cookies_file : option pystr
}.

(** The plugin configuration, as far as the modelled code reads it.  An
    [option] field is a key that may be missing; [platform_configs] maps a
    key to [None] when its dict is empty. *)
Record config : Type := {
  file_max_duration : option Z;
  file_max_audio_only_duration : option Z;
  file_max_in_memory_file_size : option Z;
  ytdlp_enable_thumbnail_fallback : bool;
  ffmpeg_enable_livestream_previews : bool;
  ffmpeg_enable_normalize_videos_to_mp4 : bool;
  ffmpeg_enable_normalize_audio_to_mp3 : bool;
  ffmpeg_enable_thumbnail_generation : option bool;
  platforms : list (pystr * option pystr);      (* (domain, config_key) *)
  platform_configs : list (pystr * option platform_config);
  queue_preprocess_worker_limit : option Z;
  queue_event_queue_capacity : option Z
}.

(** [self.config.file.get("max_in_memory_file_size", 0)] *)
Definition max_file_size_or_0 (cfg : config) : Z :=
  get_default (file_max_in_memory_file_size cfg) 0.

(** The JSON object printed by a yt-dlp query (a missing key is [None]). *)
Record ytdlp_md : Type := {
  md_url : option pystr;
  md_id : option pystr;
  md_extractor : option pystr;
  md_uploader : option pystr;
  md_title : option pystr;
  md_duration : option Z;
  md_filesize_approx : option Z;
  md_is_live : bool;
  md_thumbnail : option pystr;
  md_selected_format : option pystr;
  md_webpage_url : option pystr;
  md_error : option pystr
}.

(** Modelled from the spec: [FfmpegMetadata] (the module
    [origami_media/models/ffmpeg_models.py] is not among the sources); the
    spec's TranscodeMetadata carries width, height and duration of a probed
    byte buffer. *)
Record FfmpegMetadata : Type := {
  fm_width : Z;
  fm_height : Z;
  fm_duration : Z
}.

(** ** The outside world *)

(** The answer of the HTTP server to one GET. *)
Inductive http_response : Type :=
| HttpResponse (status : Z) (chunks : list bytes)
| HttpTransportError.

(** The parsed stdout of a yt-dlp query. *)
Inductive json_out : Type :=
| JEmpty                          (* empty output *)
| JInvalid                        (* [json.loads] or the item assignment raises *)
| JDict (d : option ytdlp_md).    (* [None]: the empty dict *)

(** How a yt-dlp query child process ends. *)
Inductive query_outcome : Type :=
| QSpawnError                     (* [create_subprocess_shell] raises *)
| QTimeout                        (* [wait_for(..., timeout=30)] expires *)
| QExit (rc : Z) (stderr : pystr) (stdout : json_out).

(** How a yt-dlp download child process ends: exit code, stderr and the
    files it left in the download directory. *)
Inductive dl_outcome : Type :=
| DlSpawnError
| DlExit (rc : Z) (stderr : pystr) (files : list bytes).

Record env : Type := {
  urlparse_netloc : pystr -> pystr;          (* [urlparse(url).netloc] *)
  shlex_quote : pystr -> pystr;              (* [shlex.quote] *)
  unicodedata_nfkd : pystr -> pystr;         (* [unicodedata.normalize("NFKD", _)] *)
  uuid4 : pystr;                             (* [str(uuid.uuid4())] *)
  uuid5_url : pystr -> pystr;                (* [str(uuid.uuid5(NAMESPACE_URL, _))] *)
  http_get : pystr -> option pystr -> list (pystr * pystr) -> nat -> http_response;
                                             (* url, proxy, headers, attempt number *)
  tmp_file : pystr -> option pystr;          (* contents of a file *)
  run_query : pystr -> query_outcome;
  run_download : pystr -> dl_outcome;
  run_capture : pystr -> option (Z * bytes); (* ffmpeg live capture: rc, stdout *)
  magic_mimetype : bytes -> pystr;           (* [mautrix.util.magic.mimetype] *)
  probe_bytes : bytes -> option FfmpegMetadata;
  convert_bytes_png : bytes -> pystr -> exn + bytes  (* thumbnail frame, input format *)
}.

(** ** [Native.client_download] *)

Section Native.

Variable e : env.

(** [async for chunk in response.content.iter_chunked(8192)]: the chunk is
    counted, the limit checked, and only then written to the buffer.  The
    bare [raise] with no active exception is a [RuntimeError]. *)
Fixpoint stream_chunks (max_file_size total : Z) (chunks : list bytes)
    (output : bytes) : M bytes :=
  match chunks with
  | [] => ret output
  | chunk :: rest =>
      let total_bytes := total + Z.of_nat (length chunk) in
      emit (EvHttpChunk (length chunk)) ;;
      if (max_file_size >? 0) && (total_bytes >? max_file_size)
      then raise RuntimeError
      else stream_chunks max_file_size total_bytes rest (output ++ chunk)
  end.

(** What one attempt of the retry loop does next. *)
Inductive flow (A : Type) : Type :=
| FReturn (a : A)      (* [return] *)
| FContinue            (* [continue]: skips the sleep *)
| FFallThrough.        (* reaches [await asyncio.sleep(1)] *)
Arguments FReturn {A} a.
Arguments FContinue {A}.
Arguments FFallThrough {A}.

Definition client_download_attempt (url : pystr) (proxy : option pystr)
    (headers : list (pystr * pystr)) (max_file_size : Z)
    (attempt : nat) : M (flow bytes) :=
  try_except
    (emit (EvHttpGet url attempt) ;;
     match http_get e url proxy headers attempt with
     | HttpTransportError => raise (Exception (u "transport error"))
     | HttpResponse status chunks =>
         if negb (status =? 200) then ret FContinue
         else let* data := stream_chunks max_file_size 0 chunks [] in
              ret (FReturn data)
     end)
    (fun _ => ret FFallThrough).

(** [for attempt in range(attempt, max_retries + 1)]; after the loop the
    bare [raise] is a [RuntimeError]. *)
Fixpoint client_download_loop (url : pystr) (proxy : option pystr)
    (headers : list (pystr * pystr)) (max_file_size : Z)
    (attempt : nat) (remaining : nat) : M bytes :=
  match remaining with
  | O => raise RuntimeError
  | S remaining' =>
      let* r := client_download_attempt url proxy headers max_file_size attempt in
      match r with
      | FReturn data => ret data
      | FContinue =>
          client_download_loop url proxy headers max_file_size (S attempt) remaining'
      | FFallThrough =>
          emit (EvSleep 1) ;;
          client_download_loop url proxy headers max_file_size (S attempt) remaining'
      end
  end.

Definition max_retries : nat := 1.

(** [proxy = None; if platform_config["enable_proxy"]: proxy =
    platform_config.get("proxy")] *)
Definition client_download_proxy (platform_config : platform_config)
    : M (option pystr) :=
  let* enable_proxy := get_key (pc_enable_proxy platform_config) in
  ret (if enable_proxy then pc_proxy platform_config else None).

(** [headers = {}; if platform_config["enable_custom_user_agent"]:
    user_agent = platform_config["custom_user_agent"]; if user_agent:
    headers["User-Agent"] = user_agent] *)
Definition client_download_headers (platform_config : platform_config)
    : M (list (pystr * pystr)) :=
  let* enable_custom_user_agent :=
    get_key (pc_enable_custom_user_agent platform_config) in
  if enable_custom_user_agent then
    let* user_agent := get_key (pc_custom_user_agent platform_config) in
    ret (if truthy_str user_agent then [(u "User-Agent", user_agent)] else [])
  else ret [].

(** The platform keys are read before the loop and outside its [try]; the
    proxy and headers are passed to every request, and the oracle
    [http_get] stands for the server's answer to it. *)
Definition client_download (cfg : config) (url : pystr)
    (platform_config : platform_config) : M bytes :=
  let max_file_size := max_file_size_or_0 cfg in
  let* proxy := client_download_proxy platform_config in
  let* headers := client_download_headers platform_config in
  client_download_loop url proxy headers max_file_size 1 max_retries.

End Native.

(** ** [Ffmpeg] *)

Section Ffmpeg.

Variable e : env.
Variable cfg : config.

(** [_validate_file_size] *)
Definition validate_file_size (data : bytes) : bool :=
  negb (Z.of_nat (length data) >? max_file_size_or_0 cfg).

(** [extract_thumbnail]: [convert_bytes] may raise; an oversized frame hits
    the bare [raise], a [RuntimeError]. *)
Definition extract_thumbnail (video_data : bytes) (format : pystr) : M bytes :=
  emit (EvFfmpeg (u "extract_thumbnail")) ;;
  match convert_bytes_png e video_data format with
  | inl ex => raise ex
  | inr thumbnail_data =>
      if negb (validate_file_size thumbnail_data) then raise RuntimeError
      else ret thumbnail_data
  end.

(** [capture_livestream]: every failure is re-raised as [RuntimeError]. *)
Definition capture_livestream (stream_url : pystr) : M bytes :=
  emit (EvFfmpeg (u "capture_livestream")) ;;
  match run_capture e stream_url with
  | None => raise RuntimeError
  | Some (rc, stdout) =>
      if negb (rc =? 0) then raise RuntimeError
      else if negb (validate_file_size stdout) then raise RuntimeError
      else ret stdout
  end.

(** [extract_metadata]: the probe result is parsed by the oracle. *)
Definition extract_metadata (data : bytes) : M FfmpegMetadata :=
  if negb (validate_file_size data) then raise ValueError
  else
    emit (EvFfmpeg (u "probe")) ;;
    match probe_bytes e data with
    | None => raise ValueError
    | Some m => ret m
    end.

End Ffmpeg.

(** ** [Ytdlp] *)

(** One entry of the command list: [{"command": ..., "selected_format": ...}]. *)
Record ytcmd : Type := {
  command : pystr;
  selected_format : pystr
}.

Definition ytcmd_eqb (a b : ytcmd) : bool :=
  pystr_eqb (command a) (command b) &&
  pystr_eqb (selected_format a) (selected_format b).

Inductive command_type : Type := CmdQuery | CmdDownload.

(** [modifier == "force_audio_only"] *)
Definition is_force_audio_only (modifier : option pystr) : bool :=
  match modifier with
  | Some m => pystr_eqb m (u "force_audio_only")
  | None => false
  end.

Section Ytdlp.

Variable e : env.

Definition sp : pystr := u " ".

(** [Ytdlp.create_ytdlp_commands] *)
Definition create_ytdlp_commands (url : pystr) (command_type : command_type)
    (pc : platform_config) (uuid : pystr) (modifier : option pystr)
    : M (list ytcmd) :=
  let formats := pc_ytdlp_formats pc in
  if negb (match formats with [] => false | _ => true end) then raise ValueError
  else
  let escaped_url := shlex_quote e url in
  let query_flags := u "-s -j" in
  let output_arg := u "/tmp/" ++ uuid in
  let proxy :=
    if py_get_flag (pc_enable_proxy pc) then u "--proxy '" ++ py_str_opt (pc_proxy pc) ++ u "'"
    else [] in
  let user_agent :=
    if py_get_flag (pc_enable_custom_user_agent pc)
    then u "--user-agent '" ++ py_str_opt (pc_custom_user_agent pc) ++ u "'"
    else [] in
  let cookies :=
    if pc_enable_cookies pc
    then u "--cookies '/tmp/" ++ pc_name pc ++ u "-cookies.txt'"
    else [] in
  let flags := cookies ++ sp ++ user_agent ++ sp ++ proxy in
  match command_type with
  | CmdQuery =>
      if is_force_audio_only modifier then
        ret [{| command := u "yt-dlp -q --no-warnings " ++ query_flags ++ sp ++
                           flags ++ u " -x " ++ escaped_url;
                selected_format := u "audio_only" |}]
      else
        (fix build (fs : list pystr) : M (list ytcmd) :=
           match fs with
           | [] => ret []
           | format_entry :: fs' =>
               if negb (truthy_str format_entry) then raise ValueError
               else
                 let* rest := build fs' in
                 ret ({| command := u "yt-dlp -q --no-warnings " ++ query_flags ++ sp ++
                                    flags ++ u " -f '" ++ format_entry ++ u "' " ++
                                    escaped_url;
                         selected_format := format_entry |} :: rest)
           end) formats
  | CmdDownload =>
      let output_option := u "-P '" ++ output_arg ++ u "'" in
      if is_force_audio_only modifier then
        ret [{| command := u "yt-dlp -q --no-warnings " ++ flags ++
                           u " -x --audio-format mp3 --embed-thumbnail " ++
                           output_option ++ sp ++ escaped_url;
                selected_format := u "audio_only" |}]
      else
        ret (map (fun format_entry =>
                    {| command := u "yt-dlp -q --no-warnings " ++ flags ++
                                   u " -f '" ++ format_entry ++ u "' " ++
                                   output_option ++ sp ++ escaped_url;
                       selected_format := format_entry |}) formats)
  end.

(** [stderr.decode().strip() or "No error message captured."] *)
Definition error_message_of (stderr : pystr) : pystr :=
  let s := py_strip stderr in
  if truthy_str s then s else u "No error message captured.".

(** [any(code in error_message for code in ["403"])] *)
Definition is_non_retryable (error_message : pystr) : bool :=
  py_contains (u "403") error_message.

(** The dict [{"error": error_message}]. *)
Definition error_md (msg : pystr) : ytdlp_md :=
  {| md_url := None; md_id := None; md_extractor := None; md_uploader := None;
     md_title := None; md_duration := None; md_filesize_approx := None;
     md_is_live := false; md_thumbnail := None; md_selected_format := None;
     md_webpage_url := None; md_error := Some msg |}.

Definition with_selected_format (d : ytdlp_md) (format : pystr) : ytdlp_md :=
  {| md_url := md_url d; md_id := md_id d; md_extractor := md_extractor d;
     md_uploader := md_uploader d; md_title := md_title d;
     md_duration := md_duration d; md_filesize_approx := md_filesize_approx d;
     md_is_live := md_is_live d; md_thumbnail := md_thumbnail d;
     md_selected_format := Some format; md_webpage_url := md_webpage_url d;
     md_error := md_error d |}.

(** [Ytdlp.ytdlp_execute_query].  The name [process] is bound only once a
    child has been spawned in this call; before that the [finally] clause's
    [if process] raises [UnboundLocalError]. *)
Fixpoint ytdlp_execute_query_loop (commands : list ytcmd) (process_bound : bool)
    : M ytdlp_md :=
  match commands with
  | [] => raise RuntimeError
  | c :: rest =>
      if negb (truthy_str (command c)) then ytdlp_execute_query_loop rest process_bound
      else
        emit (EvSpawn (command c)) ;;
        match run_query e (command c) with
        | QSpawnError =>
            if process_bound then ytdlp_execute_query_loop rest true
            else raise UnboundLocalError
        | QTimeout =>
            emit (EvKill (command c)) ;; ytdlp_execute_query_loop rest true
        | QExit rc stderr stdout =>
            if negb (rc =? 0) then
              let msg := error_message_of stderr in
              if is_non_retryable msg then ret (error_md msg)
              else ytdlp_execute_query_loop rest true
            else
              match stdout with
              | JDict (Some d) => ret (with_selected_format d (selected_format c))
              | _ => ytdlp_execute_query_loop rest true
              end
        end
  end.

Definition ytdlp_execute_query (commands : list ytcmd) : M ytdlp_md :=
  ytdlp_execute_query_loop commands false.

(** How one iteration of the download loop leaves the loop body. *)
Inductive dl_step : Type :=
| DlReturn (data : bytes)
| DlBreak
| DlFailed (ex : exn).    (* caught: [last_exception = e] *)

(** The [try] body of one iteration of [ytdlp_execute_download]. *)
Definition download_attempt (c : ytcmd) (download_dir : pystr) : M dl_step :=
  emit (EvMakedirs download_dir) ;;
  emit (EvSpawn (command c)) ;;
  match run_download e (command c) with
  | DlSpawnError => ret (DlFailed RuntimeError)
  | DlExit rc stderr files =>
      if negb (rc =? 0) then
        if is_non_retryable (error_message_of stderr) then ret DlBreak
        else ret (DlFailed (Exception (u "Download failed with return code")))
      else
        match files with
        | [] => ret (DlFailed FileNotFoundError)
        | [video_data] => emit (EvFileRead download_dir) ;; ret (DlReturn video_data)
        | _ :: _ :: _ => ret (DlFailed RuntimeError)
        end
  end.

(** [Ytdlp.ytdlp_execute_download]: after each attempt the [finally] clause
    removes the download directory (the child has exited by then). *)
Fixpoint ytdlp_execute_download_loop (commands : list ytcmd) (download_dir : pystr)
    (last_exception : option exn) : M bytes :=
  match commands with
  | [] => raise RuntimeError
  | c :: rest =>
      if negb (truthy_str (command c))
      then ytdlp_execute_download_loop rest download_dir last_exception
      else
        let* step := download_attempt c download_dir in
        emit (EvCleanup download_dir) ;;
        match step with
        | DlReturn data => ret data
        | DlBreak => raise RuntimeError
        | DlFailed ex => ytdlp_execute_download_loop rest download_dir (Some ex)
        end
  end.

Definition ytdlp_execute_download (commands : list ytcmd) (uuid : pystr) : M bytes :=
  ytdlp_execute_download_loop commands (u "/tmp/" ++ uuid ++ u "/") None.

End Ytdlp.

(** ** [MediaProcessor] *)

Inductive origin : Type :=
| OSimple | OAdvanced | OAdvancedThumbnailFallback | OThumbnail.

(** The dicts the processor passes to [_create_media_object] as
    [other_metadata]; every key except [thumbnail], [meta_size] and
    [meta_duration] is always present, so [.get] returns its value. *)
Record other_md : Type := {
  om_id : option pystr;
  om_extractor : option pystr;
  om_uploader : option pystr;
  om_title : option pystr;
  om_url : pystr;
  om_origin : origin;
  om_thumbnail : option pystr;
  om_meta_size : option Z;
  om_meta_duration : option Z
}.

Record MediaInfo : Type := {
  mi_url : pystr;
  mi_media_type : pystr;
  mi_origin : origin;
  mi_id : option pystr;
  mi_mimetype : pystr;
  mi_thumbnail_url : option pystr;
  mi_title : option pystr;
  mi_uploader : option pystr;
  mi_extractor : option pystr;
  mi_ext : pystr;
  mi_duration : Z;
  mi_width : Z;
  mi_height : Z;
  mi_size : Z;
  mi_meta_size : option Z;
  mi_meta_duration : option Z
}.

Record MediaFile : Type := {
  mf_filename : pystr;
  mf_metadata : MediaInfo;
  mf_stream : bytes
}.

Record Media : Type := {
  content : MediaFile;
  thumbnail : option MediaFile
}.

(** The attributes of a request that [process_request] reads. *)
Record MediaRequest : Type := {
  req_platform_config : platform_config;
  req_url : pystr;
  req_uuid : pystr;
  req_ytdlp_metadata : option ytdlp_md;   (* [None] or a non-empty dict *)
  req_modifier : option pystr
}.

(** *** Filename derivation *)

Definition is_ascii_code (c : Z) : bool := c <? 128.

(** The character class of the first substitution: the ASCII characters
    less-than, greater-than, colon, double quote, slash, backslash, bar,
    question mark, star and apostrophe, the controls U+0000 to U+001F, and
    the curly quotes U+2019, U+201C and U+201D. *)
Definition is_invalid_filename_char (c : Z) : bool :=
  existsb (Z.eqb c) [60; 62; 58; 34; 47; 92; 124; 63; 42; 39] ||
  ((0 <=? c) && (c <=? 31)) ||
  (c =? 8217) || (c =? 8220) || (c =? 8221).

(** [re.sub(pattern + "+", "_", s)] for a one-character class [p]: every
    maximal run of matching characters becomes one underscore.  With [p]
    the underscore itself this is also [re.sub(r"__+", "_", s)], since a
    lone underscore is left as it is. *)
Fixpoint sub_runs (p : Z -> bool) (in_run : bool) (s : pystr) : pystr :=
  match s with
  | [] => []
  | c :: s' =>
      if p c then (if in_run then sub_runs p true s' else 95 :: sub_runs p true s')
      else c :: sub_runs p false s'
  end.

Definition is_underscore_or_dot (c : Z) : bool := (c =? 95) || (c =? 46).

(** [_generate_filename] *)
Definition generate_filename (nfkd : pystr -> pystr) (m : other_md) : pystr :=
  let filename :=
    py_str_opt (om_title m) ++ u "-" ++ py_str_opt (om_uploader m) ++ u "-" ++
    py_str_opt (om_extractor m) ++ u "-" ++ py_str_opt (om_id m) in
  (* NFKD, then .encode("ASCII", "ignore").decode("ASCII") *)
  let filename := filter is_ascii_code (nfkd filename) in
  let filename :=
    map (fun c => if is_invalid_filename_char c then 95 else c) filename in
  let filename := sub_runs py_isspace false filename in
  let filename := sub_runs (Z.eqb 95) false filename in
  let filename := firstn 255 (strip_by is_underscore_or_dot filename) in
  sub_runs (Z.eqb 95) false filename.

(** [_generate_media_filename] *)
Definition generate_media_filename (nfkd : pystr -> pystr) (m : other_md)
    (extension : pystr) : pystr :=
  generate_filename nfkd m ++ u "." ++ extension.

Section Processor.

Variable e : env.
Variable cfg : config.

(** [_get_domain] *)
Definition get_domain (url : pystr) : pystr :=
  let host := hd [] (py_split 58 (urlparse_netloc e url)) in
  py_lower (py_join (u ".") (last_two (py_split 46 host))).

(** The [config_key] of the first platform whose domain matches. *)
Fixpoint find_config_key (domain : pystr) (ps : list (pystr * option pystr))
    : option pystr :=
  match ps with
  | [] => None
  | (d, k) :: ps' => if pystr_eqb d domain then k else find_config_key domain ps'
  end.

(** [_get_platform_config] (it performs no I/O, only logging). *)
Definition get_platform_config (domain : pystr) (query_derived : bool)
    : option platform_config :=
  let config_key :=
    if query_derived then Some (u "query") else find_config_key domain (platforms cfg) in
  if negb (truthy_opt_str config_key) then None
  else
    match dict_get (get_default config_key []) (platform_configs cfg) with
    | Some (Some pc) => Some pc
    | _ => None
    end.

(** [_handle_cookies]; [write_to_directory] catches its own failures. *)
Definition handle_cookies (pc : platform_config) : M unit :=
  if negb (pc_enable_cookies pc) then ret tt
  else
    let path := u "/tmp/" ++ pc_name pc ++ u "-cookies.txt" in
    try_except
      (emit (EvFileExists path) ;;
       match tmp_file e path with
       | Some previous_cookie_str =>
           emit (EvFileRead path) ;;
           if match pc_cookies_file pc with
              | Some cur => pystr_eqb previous_cookie_str cur
              | None => false
              end
           then ret tt
           else emit (EvFileWrite path)
       | None => emit (EvFileWrite path)
       end)
      (fun _ => ret tt).

(** [_query_advanced_media] *)
Definition query_advanced_media (url : pystr) (pc : platform_config) (uuid : pystr)
    (modifier : option pystr) : M (option ytdlp_md) :=
  try_except
    (let* query_commands := create_ytdlp_commands e url CmdQuery pc uuid modifier in
     let* md := ytdlp_execute_query e query_commands in
     ret (Some md))
    (fun _ => ret None).

Inductive request_metadata : Type :=
| RMDict (d : ytdlp_md) | RMInvalid | RMNA.

(** [_get_media_request_metadata] *)
Definition get_media_request_metadata (pc : platform_config) (url uuid : pystr)
    (modifier : option pystr) : M request_metadata :=
  if pc_ytdlp pc then
    let* metadata := query_advanced_media url pc uuid modifier in
    match metadata with
    | Some d => ret (RMDict d)
    | None => ret RMInvalid
    end
  else ret RMNA.

(** [MediaRequest(platform_config=..., url=..., uuid=..., ytdlp_metadata=...,
    modifier=...)]: the dataclass in [models/media_models.py] declares the
    fields [platform_config], [url], [modifier] and [metadata] only, so the
    keyword arguments [uuid] and [ytdlp_metadata] raise [TypeError]. *)
Definition MediaRequest_new (pc : platform_config) (url uuid : pystr)
    (ytdlp_metadata : option ytdlp_md) (modifier : option pystr)
    : M (option MediaRequest) :=
  raise TypeError.

(** [create_media_request] *)
Definition create_media_request (url : pystr) (modifier : option pystr)
    (query_derived : bool) : M (option MediaRequest) :=
  let domain := get_domain url in
  match get_platform_config domain query_derived with
  | None => ret None
  | Some pc =>
      handle_cookies pc ;;
      let id := uuid4 e in
      let* metadata_result := get_media_request_metadata pc url id modifier in
      match metadata_result with
      | RMInvalid => ret None
      | RMNA => MediaRequest_new pc url id None modifier
      | RMDict d => MediaRequest_new pc url id (Some d) modifier
      end
  end.

(** [_download_simple_media] *)
Definition download_simple_media (url : pystr) (pc : platform_config) : M (option bytes) :=
  try_except
    (let* data := client_download e cfg url pc in ret (Some data))
    (fun _ => ret None).

(** [_attempt_thumbnail_fallback] *)
Definition attempt_thumbnail_fallback (md : ytdlp_md) (pc : platform_config)
    : M (option bytes) :=
  match md_thumbnail md with
  | Some t => if truthy_str t then download_simple_media t pc else ret None
  | None => ret None
  end.

(** [_get_mimetype]: [(mime, subtype, type_)]. *)
Definition get_mimetype (data : bytes) : M (pystr * pystr * pystr) :=
  let mime := magic_mimetype e data in
  match split_once 47 mime with
  | Some (type_, subtype) => ret (mime, subtype, type_)
  | None => raise ValueError
  end.

(** [_post_process].  The condition reads
    [type_ == "video" or (type_ == "application" and modifier != "force_audio_only")]
    by Python's precedence.  The class [Ffmpeg] defines no [normalize_video]
    and no [normalize_audio], so calling either raises [AttributeError]. *)
Definition post_process (data : bytes) (pc : option platform_config)
    (modifier : option pystr) : M (option (bytes * FfmpegMetadata)) :=
  try_except
    (let* '(mime, subtype, type_) := get_mimetype data in
     let* data :=
       match pc with
       | None => ret data
       | Some pc =>
           if pystr_eqb type_ (u "video") ||
              (pystr_eqb type_ (u "application") && negb (is_force_audio_only modifier))
           then
             (if ffmpeg_enable_normalize_videos_to_mp4 cfg then raise AttributeError
              else ret data)
           else if pystr_eqb type_ (u "audio") && negb (pc_ytdlp pc) then
             (if ffmpeg_enable_normalize_audio_to_mp3 cfg then raise AttributeError
              else ret data)
           else ret data
       end in
     let processed_data := data in
     let* metadata := extract_metadata e cfg data in
     ret (Some (processed_data, metadata)))
    (fun _ => ret None).

(** The ceiling the duration gate compares against. *)
Definition select_max_duration (modifier : option pystr) : Z :=
  if is_force_audio_only modifier
  then get_default (file_max_audio_only_duration cfg) 0
  else get_default (file_max_duration cfg) 0.

(** The thumbnail-fallback-or-fail policy shared by the three gates. *)
Definition fallback_or_fail (md : ytdlp_md) (pc : platform_config)
    : M (option bytes * bool) :=
  if negb (ytdlp_enable_thumbnail_fallback cfg) then ret (None, false)
  else
    let* data := attempt_thumbnail_fallback md pc in
    ret (data, true).

(** Moves the first command whose format is [query_format] to the front. *)
Fixpoint remove_first (c : ytcmd) (l : list ytcmd) : list ytcmd :=
  match l with
  | [] => []
  | x :: l' => if ytcmd_eqb x c then l' else x :: remove_first c l'
  end.

Definition promote_format (query_format : pystr) (commands : list ytcmd) : list ytcmd :=
  match find (fun cmd => pystr_eqb (selected_format cmd) query_format) commands with
  | Some priority_command => priority_command :: remove_first priority_command commands
  | None => commands
  end.

(** The inner [try] of [_download_advanced_media]: the download proper, with
    its [except DownloadSizeExceededError] clause. *)
Definition download_section (md : ytdlp_md) (pc : platform_config) (uuid : pystr)
    (modifier : option pystr) : M (option bytes * bool) :=
  try_except
    (let* query_format := get_key (md_selected_format md) in
     let* webpage_url := get_key (md_webpage_url md) in
     let* commands := create_ytdlp_commands e webpage_url CmdDownload pc uuid modifier in
     let commands := promote_format query_format commands in
     let* data := ytdlp_execute_download e commands uuid in
     ret (Some data, false))
    (fun ex =>
       if exn_eqb ex DownloadSizeExceededError then fallback_or_fail md pc
       else raise ex).

(** The size gate and what follows it.  [max_size] has no default, so a
    missing [max_in_memory_file_size] makes [size > max_size] raise
    [TypeError]. *)
Definition size_gate_section (md : ytdlp_md) (pc : platform_config) (uuid : pystr)
    (modifier : option pystr) : M (option bytes * bool) :=
  let size := md_filesize_approx md in
  if truthy_opt_num size then
    match file_max_in_memory_file_size cfg with
    | None => raise TypeError
    | Some max_size =>
        if get_default size 0 >? max_size then fallback_or_fail md pc
        else download_section md pc uuid modifier
    end
  else download_section md pc uuid modifier.

(** The body of the outer [try] of [_download_advanced_media] after the
    live branch: the duration gate, then the size gate. *)
Definition duration_gate_section (md : ytdlp_md) (pc : platform_config) (uuid : pystr)
    (modifier : option pystr) : M (option bytes * bool) :=
  let duration := md_duration md in
  let max_duration := select_max_duration modifier in
  if truthy_opt_num duration && (get_default duration 0 >? max_duration)
  then fallback_or_fail md pc
  else size_gate_section md pc uuid modifier.

(** [_download_advanced_media] *)
Definition download_advanced_media (md : ytdlp_md) (pc : platform_config)
    (uuid : pystr) (modifier : option pystr) : M (option bytes * bool) :=
  try_except
    (if md_is_live md then
       if negb (ffmpeg_enable_livestream_previews cfg) then ret (None, false)
       else
         let* stream_url := get_key (md_url md) in
         let* data := capture_livestream e cfg stream_url in
         ret (Some data, false)
     else duration_gate_section md pc uuid modifier)
    (fun _ => ret (None, false)).

Definition truthy_bytes (b : bytes) : bool := match b with [] => false | _ => true end.

(** [_create_media_object] *)
Definition create_media_object (stream : bytes) (other_metadata : other_md)
    (file_metadata : FfmpegMetadata) : M MediaFile :=
  let* '(mimetype, ext, type_) := get_mimetype stream in
  let '(mimetype, ext, type_) :=
    match om_origin other_metadata with
    | OThumbnail => (u "image/jpeg", u "jpeg", u "image")
    | _ => (mimetype, ext, type_)
    end in
  let '(mimetype, ext) :=
    if pystr_eqb type_ (u "audio") then (u "audio/mp3", u "mp3") else (mimetype, ext) in
  ret {| mf_filename :=
           generate_media_filename (unicodedata_nfkd e) other_metadata ext;
         mf_stream := stream;
         mf_metadata :=
           {| mi_url := om_url other_metadata;
              mi_id := om_id other_metadata;
              mi_origin := om_origin other_metadata;
              mi_title := om_title other_metadata;
              mi_uploader := om_uploader other_metadata;
              mi_extractor := om_extractor other_metadata;
              mi_ext := ext;
              mi_mimetype := mimetype;
              mi_duration := fm_duration file_metadata;
              mi_width := fm_width file_metadata;
              mi_height := fm_height file_metadata;
              mi_size := Z.of_nat (length stream);
              mi_media_type := type_;
              mi_thumbnail_url := om_thumbnail other_metadata;
              mi_meta_size := om_meta_size other_metadata;
              mi_meta_duration := om_meta_duration other_metadata |} |}.

(** The metadata dict of [_process_simple_media] and
    [_process_thumbnail_media]. *)
Definition url_metadata (url : pystr) (o : origin) : other_md :=
  {| om_id := Some (uuid5_url e url);
     om_extractor := Some (hd [] (py_split 58 (urlparse_netloc e url)));
     om_uploader := Some (u "unknown_uploader");
     om_title := Some (u "unknown_title");
     om_url := url;
     om_origin := o;
     om_thumbnail := None;
     om_meta_size := None;
     om_meta_duration := None |}.

(** [_process_simple_media] *)
Definition process_simple_media (data : bytes) (url : pystr) (fm : FfmpegMetadata)
    : M MediaFile :=
  create_media_object data (url_metadata url OSimple) fm.

(** [_process_thumbnail_media] *)
Definition process_thumbnail_media (data : bytes) (url : pystr) (fm : FfmpegMetadata)
    : M MediaFile :=
  create_media_object data (url_metadata url OThumbnail) fm.

(** [_process_advanced_media] *)
Definition process_advanced_media (data : bytes) (md : ytdlp_md) (fm : FfmpegMetadata)
    (is_thumbnail_fallback : bool) : M MediaFile :=
  let* webpage_url := get_key (md_webpage_url md) in
  let mutated :=
    {| om_id := md_id md;
       om_extractor := md_extractor md;
       om_uploader := Some (get_default (md_uploader md) (u "unknown_uploader"));
       om_title := Some (get_default (md_title md) (u "unknown_title"));
       om_url := webpage_url;
       om_origin := OAdvanced;
       om_thumbnail := md_thumbnail md;
       om_meta_size := None;
       om_meta_duration := None |} in
  let mutated :=
    if is_thumbnail_fallback then
      {| om_id := om_id mutated;
         om_extractor := om_extractor mutated;
         om_uploader := om_uploader mutated;
         om_title := om_title mutated;
         om_url := om_url mutated;
         om_origin := OAdvancedThumbnailFallback;
         om_thumbnail := None;
         om_meta_size := md_filesize_approx md;
         om_meta_duration := md_duration md |}
    else mutated in
  create_media_object data mutated fm.

(** [_primary_media_controller] *)
Definition primary_media_controller (url : pystr) (pc : platform_config)
    (ytdlp_metadata : option ytdlp_md) (uuid : pystr) (modifier : option pystr)
    : M (option MediaFile) :=
  if negb (pc_ytdlp pc) then
    let* data := download_simple_media url pc in
    match data with
    | Some data =>
        if negb (truthy_bytes data) then ret None
        else
          let* result := post_process data (Some pc) modifier in
          match result with
          | Some (data, metadata) =>
              let* f := process_simple_media data url metadata in ret (Some f)
          | None => ret None
          end
    | None => ret None
    end
  else
    match ytdlp_metadata with
    | None => ret None
    | Some md =>
        let* '(data, is_thumbnail_fallback) :=
          download_advanced_media md pc uuid modifier in
        match data with
        | Some data =>
            if negb (truthy_bytes data) then ret None
            else
              let* result := post_process data (Some pc) modifier in
              match result with
              | Some (data, metadata) =>
                  let* f := process_advanced_media data md metadata is_thumbnail_fallback in
                  ret (Some f)
              | None => ret None
              end
        | None => ret None
        end
    end.

(** [_thumbnail_media_controller] *)
Definition thumbnail_media_controller (primary : MediaFile) (pc : platform_config)
    (modifier : option pystr) : M (option MediaFile) :=
  let info := mf_metadata primary in
  let* first :=
    match mi_origin info, mi_thumbnail_url info with
    | OAdvanced, Some turl =>
        if negb (truthy_str turl) then ret None
        else
          let* data := download_simple_media turl pc in
          match data with
          | Some data =>
              if negb (truthy_bytes data) then ret None
              else
                let* result := post_process data None None in
                match result with
                | Some (_, metadata) =>
                    let* f := process_thumbnail_media data (mi_url info) metadata in
                    ret (Some f)
                | None => ret None
                end
          | None => ret None
          end
    | _, _ => ret None
    end in
  match first with
  | Some f => ret (Some f)
  | None =>
      if is_force_audio_only modifier then ret None
      else if pystr_eqb (mi_media_type info) (u "video") then
        (* [self.config.ffmpeg["enable_thumbnail_generation"]] *)
        let* generation := get_key (ffmpeg_enable_thumbnail_generation cfg) in
        if negb generation then ret None
        else
          let* data := extract_thumbnail e cfg (mf_stream primary)
                         (if truthy_str (mi_ext info) then mi_ext info else u "mp4") in
          if negb (truthy_bytes data) then ret None
          else
            let* result := post_process data None None in
            match result with
            | Some (_, metadata) =>
                let* f := process_thumbnail_media data (mi_url info) metadata in
                ret (Some f)
            | None => ret None
            end
      else ret None
  end.

(** [process_request] *)
Definition process_request (request : MediaRequest) : M (option Media) :=
  let* primary_file_object :=
    primary_media_controller (req_url request) (req_platform_config request)
      (req_ytdlp_metadata request) (req_uuid request) (req_modifier request) in
  match primary_file_object with
  | None => ret None
  | Some primary =>
      let* thumbnail_file_object :=
        thumbnail_media_controller primary (req_platform_config request)
          (req_modifier request) in
      ret (Some {| content := primary; thumbnail := thumbnail_file_object |})
  end.

End Processor.

(** ** Dispatch: [PreprocessWorker.preprocess] and the bounded event queue *)

Module Dispatch.

Record CommandPacket : Type := {
  event_id : pystr;
  body : pystr
}.

(** [asyncio.Queue(maxsize)]: a [maxsize] of zero or less is unbounded. *)
Definition queue_full (maxsize : Z) (q : list CommandPacket) : bool :=
  (maxsize >? 0) && (Z.of_nat (length q) >=? maxsize).

(** [Queue.put_nowait]: raises [QueueFull] instead of waiting. *)
Definition put_nowait (maxsize : Z) (q : list CommandPacket) (item : CommandPacket)
    : exn + list CommandPacket :=
  if queue_full maxsize q then inl QueueFull else inr (q ++ [item]).

(** [Queue.get] once an item is available. *)
Definition queue_get (q : list CommandPacket) : option (CommandPacket * list CommandPacket) :=
  match q with [] => None | x :: q' => Some (x, q') end.

(** [self.config.queue.get("event_queue_capacity", 10)] *)
Definition event_queue_capacity (cfg : config) : Z :=
  get_default (queue_event_queue_capacity cfg) 10.

(** The state shared by the workers: the counted set and the queue. *)
Record shared : Type := {
  preprocess_tasks : list pystr;
  event_queue : list CommandPacket
}.

(** [set.add] and [set.discard] *)
Definition set_add (x : pystr) (s : list pystr) : list pystr :=
  if existsb (pystr_eqb x) s then s else x :: s.

Definition set_discard (x : pystr) (s : list pystr) : list pystr :=
  filter (fun y => negb (pystr_eqb x y)) s.

Section Preprocess.

Variable cfg : config.

(** [command_handler.handle_preprocess]: raises, or returns a possibly
    falsy result. *)
Variable handle_preprocess : CommandPacket -> exn + bool.

(** [_is_allowed] *)
Definition is_allowed (tasks : list pystr) : bool :=
  negb (Z.of_nat (length tasks) >? get_default (queue_preprocess_worker_limit cfg) 10).

(** [PreprocessWorker.preprocess], one invocation run to completion. *)
Definition preprocess (st : shared) (packet : CommandPacket) : shared :=
  let tasks := set_add (event_id packet) (preprocess_tasks st) in
  if negb (is_allowed tasks) then
    {| preprocess_tasks := tasks; event_queue := event_queue st |}
  else
    let queue :=
      match handle_preprocess packet with
      | inl _ => event_queue st                  (* except Exception *)
      | inr false => event_queue st
      | inr true =>
          match put_nowait (event_queue_capacity cfg) (event_queue st) packet with
          | inl _ => event_queue st              (* except asyncio.QueueFull *)
          | inr q => q
          end
      end in
    (* finally *)
    {| preprocess_tasks := set_discard (event_id packet) tasks; event_queue := queue |}.

End Preprocess.

(** The operations that change the queue: a preprocess task's [put_nowait]
    and a process worker's [get]. *)
Inductive queue_step (maxsize : Z) : list CommandPacket -> list CommandPacket -> Prop :=
| step_put : forall q p q',
    put_nowait maxsize q p = inr q' -> queue_step maxsize q q'
| step_put_full : forall q p,
    put_nowait maxsize q p = inl QueueFull -> queue_step maxsize q q
| step_get : forall x q, queue_step maxsize (x :: q) q.

Inductive reachable (maxsize : Z) : list CommandPacket -> Prop :=
| reach_init : reachable maxsize []
| reach_step : forall q q', reachable maxsize q -> queue_step maxsize q q' ->
    reachable maxsize q'.

End Dispatch.

(** ** More of [Native] *)

(** [data.startswith(prefix)] and [needle in data] for [bytes]. *)
Fixpoint bytes_startswith (p s : bytes) : bool :=
  match p, s with
  | [], _ => true
  | c :: p', d :: s' => Byte.eqb c d && bytes_startswith p' s'
  | _ :: _, [] => false
  end.

Fixpoint bytes_contains (needle hay : bytes) : bool :=
  bytes_startswith needle hay ||
  match hay with [] => false | _ :: hay' => bytes_contains needle hay' end.

(** [Native._is_image_magic_number] *)
Definition is_image_magic_number (data : bytes) : bool :=
  if bytes_startswith [Byte.xff; Byte.xd8; Byte.xff] data then true              (* JPEG *)
  else if bytes_startswith [Byte.x89; Byte.x50; Byte.x4e; Byte.x47;
                            Byte.x0d; Byte.x0a; Byte.x1a; Byte.x0a] data then true (* PNG *)
  else if bytes_startswith [Byte.x47; Byte.x49; Byte.x46; Byte.x38; Byte.x37; Byte.x61] data ||
          bytes_startswith [Byte.x47; Byte.x49; Byte.x46; Byte.x38; Byte.x39; Byte.x61] data
  then true                                                                     (* GIF *)
  else if bytes_startswith [Byte.x49; Byte.x49; Byte.x2a; Byte.x00] data ||
          bytes_startswith [Byte.x4d; Byte.x4d; Byte.x00; Byte.x2a] data
  then true                                                                     (* TIFF *)
  else if bytes_startswith [Byte.x42; Byte.x4d] data then true                  (* BMP *)
  else if bytes_startswith [Byte.x00; Byte.x00; Byte.x01; Byte.x00] data ||
          bytes_startswith [Byte.x00; Byte.x00; Byte.x02; Byte.x00] data
  then true                                                                     (* ICO *)
  else if bytes_startswith [Byte.x52; Byte.x49; Byte.x46; Byte.x46] data &&
          bytes_contains [Byte.x57; Byte.x45; Byte.x42; Byte.x50] data
  then true                                                                     (* WEBP *)
  else if bytes_startswith [Byte.x1a; Byte.x45; Byte.xdf; Byte.xa3] data then true (* WebM *)
  else false.


(** The file system as [Native]'s file helpers see it: the directories and
    the text files (path and contents; the first entry for a path is the
    current one). *)
Record fs : Type := {
  fs_dirs : list pystr;
  fs_files : list (pystr * pystr)
}.






Section FileSystem.

(** Whether the operating system lets [open(path, "w")] succeed. *)
Variable can_open_write : fs -> pystr -> bool.


End FileSystem.



(** ** [MediaHandler]: the callers of [MediaProcessor] *)

(** [ProcessedMedia] of [models/media_models.py]. *)
Record ProcessedMedia : Type := {
  pm_filename : pystr;
  pm_content_info : MediaInfo;
  pm_content_uri : pystr;
  pm_thumbnail_info : option MediaInfo;
  pm_thumbnail_uri : option pystr
}.

Section MediaHandler.

Variable e : env.
Variable cfg : config.

(** [SynapseProcessor.upload_to_content_repository(data, filename, size)]:
    the URI, possibly [None] or empty, or an exception. *)
Variable upload_to_content_repository : bytes -> pystr -> Z -> M (option pystr).

(** [MediaHandler._upload_media].  A [MediaFile] is always truthy, so the
    first check never raises; [size or 0] is [size] for an [int]; the
    [finally] only closes the streams. *)
Definition upload_media (media_object : Media) : M (pystr * option pystr) :=
  let content_part := content media_object in
  let* content_upload_result :=
    upload_to_content_repository (mf_stream content_part) (mf_filename content_part)
      (mi_size (mf_metadata content_part)) in
  if negb (truthy_opt_str content_upload_result) then raise RuntimeError
  else
    let* thumbnail_upload_result :=
      match thumbnail media_object with
      | Some thumbnail_part =>
          upload_to_content_repository (mf_stream thumbnail_part)
            (mf_filename thumbnail_part) (mi_size (mf_metadata thumbnail_part))
      | None => ret None
      end in
    ret (get_default content_upload_result [], thumbnail_upload_result).

(** The loop of [MediaHandler.preprocess]; [acc] is [media_request_array]. *)
Fixpoint handler_preprocess_loop (urls : list pystr) (modifier : option pystr)
    (query_derived : bool) (acc : list MediaRequest) : M (list MediaRequest) :=
  match urls with
  | [] => ret acc
  | url :: rest =>
      let* acc :=
        try_except
          (let* request := create_media_request e cfg url modifier query_derived in
           match request with
           | None => ret acc
           | Some media_request => ret (acc ++ [media_request])
           end)
          (fun _ => ret acc) in
      handler_preprocess_loop rest modifier query_derived acc
  end.

(** [MediaHandler.preprocess] *)
Definition media_handler_preprocess (urls : list pystr) (modifier : option pystr)
    (query_derived : bool) : M (list MediaRequest) :=
  handler_preprocess_loop urls modifier query_derived [].

(** The loop of [MediaHandler.process]; [acc] is [processed_media_array]. *)
Fixpoint handler_process_loop (requests : list MediaRequest) (acc : list ProcessedMedia)
    : M (list ProcessedMedia) :=
  match requests with
  | [] => ret acc
  | request :: rest =>
      let* acc :=
        try_except
          (let* media_object := process_request e cfg request in
           match media_object with
           | None => ret acc
           | Some m =>
               let* '(media_uri, thumbnail_uri) := upload_media m in
               ret (acc ++ [{| pm_filename := mf_filename (content m);
                               pm_content_info := mf_metadata (content m);
                               pm_content_uri := media_uri;
                               pm_thumbnail_info := option_map mf_metadata (thumbnail m);
                               pm_thumbnail_uri := thumbnail_uri |}])
           end)
          (fun _ => ret acc) in
      handler_process_loop rest acc
  end.

Definition no_media_message : pystr :=
  u "MediaHandler.process: No media was successfully processed.".

(** [MediaHandler.process] *)
Definition media_handler_process (requests : list MediaRequest) : M (list ProcessedMedia) :=
  let* processed_media_array := handler_process_loop requests [] in
  match processed_media_array with
  | [] => raise (Exception no_media_message)
  | _ => ret processed_media_array
  end.

End MediaHandler.

(** The two handler calls of [CommandHandler._process_query]:
    [preprocess(valid_urls, query_derived=True)], then
    [process(requests=media_requests)] with no emptiness check between
    them. *)
Definition process_query_media (e : env) (cfg : config)
    (upload_to_content_repository : bytes -> pystr -> Z -> M (option pystr))
    (valid_urls : list pystr) : M (list ProcessedMedia) :=
  let* media_requests := media_handler_preprocess e cfg valid_urls None true in
  media_handler_process e cfg upload_to_content_repository media_requests.

(** ** The filename shape of the spec *)

(** [[A-Za-z0-9_.-]] *)
Definition filename_re_char (c : Z) : bool :=
  ((65 <=? c) && (c <=? 90)) || ((97 <=? c) && (c <=? 122)) ||
  ((48 <=? c) && (c <=? 57)) || (c =? 95) || (c =? 46) || (c =? 45).

(** [re.fullmatch(r"[A-Za-z0-9_.-]{1,255}", s)] *)
Definition filename_re_match (s : pystr) : bool :=
  (1 <=? Z.of_nat (length s)) && (Z.of_nat (length s) <=? 255) &&
  forallb filename_re_char s.

(** How one download command ends, read off its child process: the classes
    that [ytdlp_execute_download] tells apart. *)
Inductive dl_class : Type :=
| ClsSuccess (data : bytes)
| ClsNonRetryable
| ClsOtherFailure.

Definition dl_class_of (e : env) (c : ytcmd) : dl_class :=
  match run_download e (command c) with
  | DlSpawnError => ClsOtherFailure
  | DlExit rc stderr files =>
      if negb (rc =? 0) then
        if is_non_retryable (error_message_of stderr) then ClsNonRetryable
        else ClsOtherFailure
      else match files with [video_data] => ClsSuccess video_data | _ => ClsOtherFailure end
  end.

(** The download policy in the spec's words: try each command in turn until
    one succeeds; a non-retryable failure stops the list, any other failure
    advances to the next command.  Returns the commands run and the data. *)
Fixpoint spec_try_each (cls : ytcmd -> dl_class) (cmds : list ytcmd)
    : list pystr * option bytes :=
  match cmds with
  | [] => ([], None)
  | c :: rest =>
      match cls c with
      | ClsSuccess data => ([command c], Some data)
      | ClsNonRetryable => ([command c], None)
      | ClsOtherFailure =>
          let (tried, r) := spec_try_each cls rest in (command c :: tried, r)
      end
  end.

(** The commands spawned along a trace. *)
Definition spawned (tr : list event) : list pystr :=
  flat_map (fun ev => match ev with EvSpawn c => [c] | _ => [] end) tr.

(** A character that survives [_generate_filename]: ASCII, outside the
    invalid class, not whitespace. *)
Definition safe_filename_char (c : Z) : bool :=
  is_ascii_code c && negb (is_invalid_filename_char c) && negb (py_isspace c).

(** Number of HTTP requests in a trace. *)
Definition is_http_get (ev : event) : bool :=
  match ev with EvHttpGet _ _ => true | _ => false end.

Definition count_http_gets (tr : list event) : nat :=
  length (filter is_http_get tr).

(** Total length of a list of chunks. *)
Definition total_len (chunks : list bytes) : Z :=
  fold_right (fun c acc => Z.of_nat (length c) + acc) 0 chunks.

(** Child processes started, and download directories removed, in a trace. *)
Definition is_spawn (ev : event) : bool :=
  match ev with EvSpawn _ => true | _ => false end.

Definition is_cleanup (ev : event) : bool :=
  match ev with EvCleanup _ => true | _ => false end.

(** The bytes of a media file the processor hands out: non-empty, and
    accepted by the size check of [extract_metadata]. *)
Definition stream_ok (cfg : config) (f : MediaFile) : Prop :=
  (0 < length (mf_stream f))%nat /\ Z.of_nat (length (mf_stream f)) <= max_file_size_or_0 cfg.

(** ** Concrete configurations used by the witnesses *)

Module Fixtures.

Definition png_bytes : bytes := [Byte.x89; Byte.x50; Byte.x4e; Byte.x47].
Definition mp4_bytes : bytes := [Byte.x00; Byte.x00; Byte.x00; Byte.x18; Byte.x66; Byte.x74].
Definition big_mp4_bytes : bytes := Byte.x00 :: Byte.x00 :: Byte.x00 :: repeat Byte.x18 20.

Definition thumb_url : pystr := u "https://img.example.com/t.png".
Definition video_url : pystr := u "https://example.com/v.mp4".
Definition page_url : pystr := u "https://www.youtube.com/watch?v=abc".

Definition pc_youtube : platform_config :=
  {| pc_name := u "youtube"; pc_ytdlp := true;
     pc_ytdlp_formats := [u "bestvideo+bestaudio"; u "best"; u "worst"];
     pc_enable_proxy := Some false; pc_proxy := None;
     pc_enable_custom_user_agent := Some false; pc_custom_user_agent := None;
     pc_enable_cookies := false; pc_cookies_file := None |}.

Definition pc_direct : platform_config :=
  {| pc_name := u "direct"; pc_ytdlp := false; pc_ytdlp_formats := [];
     pc_enable_proxy := Some false; pc_proxy := None;
     pc_enable_custom_user_agent := Some false; pc_custom_user_agent := None;
     pc_enable_cookies := true; pc_cookies_file := Some (u "cookie") |}.

Definition pc_nokeys : platform_config :=
  {| pc_name := u "direct"; pc_ytdlp := false; pc_ytdlp_formats := [];
     pc_enable_proxy := None; pc_proxy := None;
     pc_enable_custom_user_agent := None; pc_custom_user_agent := None;
     pc_enable_cookies := false; pc_cookies_file := None |}.

Definition pc_ua : platform_config :=
  {| pc_name := u "direct"; pc_ytdlp := false; pc_ytdlp_formats := [];
     pc_enable_proxy := Some true; pc_proxy := None;
     pc_enable_custom_user_agent := Some true; pc_custom_user_agent := Some (u "origami");
     pc_enable_cookies := false; pc_cookies_file := None |}.

Definition cfg0 : config :=
  {| file_max_duration := Some 600;
     file_max_audio_only_duration := Some 1200;
     file_max_in_memory_file_size := Some 10;
     ytdlp_enable_thumbnail_fallback := true;
     ffmpeg_enable_livestream_previews := false;
     ffmpeg_enable_normalize_videos_to_mp4 := false;
     ffmpeg_enable_normalize_audio_to_mp3 := false;
     ffmpeg_enable_thumbnail_generation := Some true;
     platforms := [(u "youtube.com", Some (u "youtube"));
                   (u "example.com", Some (u "direct"))];
     platform_configs := [(u "youtube", Some pc_youtube); (u "direct", Some pc_direct)];
     queue_preprocess_worker_limit := Some 10;
     queue_event_queue_capacity := Some 10 |}.

(** yt-dlp metadata of a long video (the spec's scenario B). *)
Definition md_long : ytdlp_md :=
  {| md_url := Some (u "https://cdn.example.com/stream");
     md_id := Some (u "abc"); md_extractor := Some (u "youtube");
     md_uploader := None; md_title := Some (u "A title");
     md_duration := Some 99999; md_filesize_approx := None;
     md_is_live := false; md_thumbnail := Some thumb_url;
     md_selected_format := Some (u "best"); md_webpage_url := Some page_url;
     md_error := None |}.

(** Metadata whose declared duration sits exactly at the ceiling 600. *)
Definition md_at_ceiling : ytdlp_md :=
  {| md_url := None; md_id := Some (u "abc"); md_extractor := Some (u "youtube");
     md_uploader := None; md_title := None; md_duration := Some 600;
     md_filesize_approx := None; md_is_live := false;
     md_thumbnail := Some thumb_url; md_selected_format := Some (u "best");
     md_webpage_url := Some page_url; md_error := None |}.

(** A short video (60 s, no declared size) whose download turns out larger
    than the 10-byte in-memory limit of [cfg0]. *)
Definition md_short : ytdlp_md :=
  {| md_url := None; md_id := Some (u "abc"); md_extractor := Some (u "youtube");
     md_uploader := None; md_title := None; md_duration := Some 60;
     md_filesize_approx := None; md_is_live := false;
     md_thumbnail := Some thumb_url; md_selected_format := Some (u "best");
     md_webpage_url := Some page_url; md_error := None |}.

Definition netloc_of (url : pystr) : pystr :=
  match py_split 47 url with _ :: _ :: host :: _ => host | _ => [] end.

Definition env0 : env :=
  {| urlparse_netloc := netloc_of;
     shlex_quote := fun s => s;
     unicodedata_nfkd := fun s => s;
     uuid4 := u "0b7e";
     uuid5_url := fun _ => u "5f1d";
     http_get := fun url _ _ _ =>
       if pystr_eqb url thumb_url then HttpResponse 200 [png_bytes]
       else if pystr_eqb url video_url then HttpResponse 200 [mp4_bytes; mp4_bytes]
       else HttpTransportError;
     tmp_file := fun _ => None;
     run_query := fun _ => QExit 0 [] (JDict (Some md_long));
     run_download := fun _ => DlExit 0 [] [mp4_bytes];
     run_capture := fun _ => None;
     magic_mimetype := fun b =>
       match b with Byte.x89 :: _ => u "image/png" | _ => u "video/mp4" end;
     probe_bytes := fun _ => Some {| fm_width := 640; fm_height := 360; fm_duration := 1 |};
     convert_bytes_png := fun _ _ => inr png_bytes |}.

Definition req_long : MediaRequest :=
  {| req_platform_config := pc_youtube; req_url := page_url; req_uuid := u "0b7e";
     req_ytdlp_metadata := Some md_long; req_modifier := None |}.

(** [env0] where yt-dlp leaves a 23-byte file. *)
Definition env_big : env :=
  {| urlparse_netloc := urlparse_netloc env0;
     shlex_quote := shlex_quote env0;
     unicodedata_nfkd := unicodedata_nfkd env0;
     uuid4 := uuid4 env0;
     uuid5_url := uuid5_url env0;
     http_get := http_get env0;
     tmp_file := tmp_file env0;
     run_query := run_query env0;
     run_download := fun _ => DlExit 0 [] [big_mp4_bytes];
     run_capture := run_capture env0;
     magic_mimetype := magic_mimetype env0;
     probe_bytes := probe_bytes env0;
     convert_bytes_png := convert_bytes_png env0 |}.

Definition req_short : MediaRequest :=
  {| req_platform_config := pc_youtube; req_url := page_url; req_uuid := u "0b7e";
     req_ytdlp_metadata := Some md_short; req_modifier := None |}.

(** A server whose first answer is a transport failure and whose second
    would succeed. *)
Definition env_flaky : env :=
  {| urlparse_netloc := urlparse_netloc env0;
     shlex_quote := shlex_quote env0;
     unicodedata_nfkd := unicodedata_nfkd env0;
     uuid4 := uuid4 env0;
     uuid5_url := uuid5_url env0;
     http_get := fun _ _ _ attempt =>
       match attempt with 1%nat => HttpTransportError | _ => HttpResponse 200 [png_bytes] end;
     tmp_file := tmp_file env0;
     run_query := run_query env0;
     run_download := run_download env0;
     run_capture := run_capture env0;
     magic_mimetype := magic_mimetype env0;
     probe_bytes := probe_bytes env0;
     convert_bytes_png := convert_bytes_png env0 |}.

(** [cfg0] without [max_in_memory_file_size]. *)
Definition cfg_nocap : config :=
  {| file_max_duration := file_max_duration cfg0;
     file_max_audio_only_duration := file_max_audio_only_duration cfg0;
     file_max_in_memory_file_size := None;
     ytdlp_enable_thumbnail_fallback := ytdlp_enable_thumbnail_fallback cfg0;
     ffmpeg_enable_livestream_previews := ffmpeg_enable_livestream_previews cfg0;
     ffmpeg_enable_normalize_videos_to_mp4 := ffmpeg_enable_normalize_videos_to_mp4 cfg0;
     ffmpeg_enable_normalize_audio_to_mp3 := ffmpeg_enable_normalize_audio_to_mp3 cfg0;
     ffmpeg_enable_thumbnail_generation := ffmpeg_enable_thumbnail_generation cfg0;
     platforms := platforms cfg0;
     platform_configs := platform_configs cfg0;
     queue_preprocess_worker_limit := queue_preprocess_worker_limit cfg0;
     queue_event_queue_capacity := queue_event_queue_capacity cfg0 |}.

(** A server streaming three 4-byte chunks. *)
Definition env_chunks : env :=
  {| urlparse_netloc := urlparse_netloc env0;
     shlex_quote := shlex_quote env0;
     unicodedata_nfkd := unicodedata_nfkd env0;
     uuid4 := uuid4 env0;
     uuid5_url := uuid5_url env0;
     http_get := fun _ _ _ _ => HttpResponse 200 [png_bytes; png_bytes; png_bytes];
     tmp_file := tmp_file env0;
     run_query := run_query env0;
     run_download := run_download env0;
     run_capture := run_capture env0;
     magic_mimetype := magic_mimetype env0;
     probe_bytes := probe_bytes env0;
     convert_bytes_png := convert_bytes_png env0 |}.

(** Two download commands, and a child that fails with a 404 on the first
    one and succeeds on the second. *)
Definition cmd_a : ytcmd := {| command := u "yt-dlp -f 'a'"; selected_format := u "a" |}.
Definition cmd_b : ytcmd := {| command := u "yt-dlp -f 'b'"; selected_format := u "b" |}.

Definition env_404 : env :=
  {| urlparse_netloc := urlparse_netloc env0;
     shlex_quote := shlex_quote env0;
     unicodedata_nfkd := unicodedata_nfkd env0;
     uuid4 := uuid4 env0;
     uuid5_url := uuid5_url env0;
     http_get := http_get env0;
     tmp_file := tmp_file env0;
     run_query := run_query env0;
     run_download := fun cmd =>
       if pystr_eqb cmd (command cmd_a)
       then DlExit 1 (u "ERROR: HTTP Error 404: Not Found") []
       else DlExit 0 [] [mp4_bytes];
     run_capture := run_capture env0;
     magic_mimetype := magic_mimetype env0;
     probe_bytes := probe_bytes env0;
     convert_bytes_png := convert_bytes_png env0 |}.

(** Item metadata whose title keeps a character outside the filename
    class, and one with a 300-character title. *)
Definition om_bang : other_md :=
  {| om_id := Some (u "1"); om_extractor := Some (u "x"); om_uploader := Some (u "u");
     om_title := Some (u "Hello!"); om_url := thumb_url; om_origin := OSimple;
     om_thumbnail := None; om_meta_size := None; om_meta_duration := None |}.

Definition om_long : other_md :=
  {| om_id := Some (u "1"); om_extractor := Some (u "x"); om_uploader := Some (u "u");
     om_title := Some (repeat 97 300); om_url := thumb_url; om_origin := OSimple;
     om_thumbnail := None; om_meta_size := None; om_meta_duration := None |}.

Definition fm0 : FfmpegMetadata := {| fm_width := 1; fm_height := 1; fm_duration := 0 |}.

(** A direct video link whose six bytes fit the cap, and an ffmpeg that
    fails to extract a frame. *)
Definition env_badconv : env :=
  {| urlparse_netloc := urlparse_netloc env0;
     shlex_quote := shlex_quote env0;
     unicodedata_nfkd := unicodedata_nfkd env0;
     uuid4 := uuid4 env0;
     uuid5_url := uuid5_url env0;
     http_get := fun _ _ _ _ => HttpResponse 200 [mp4_bytes];
     tmp_file := tmp_file env0;
     run_query := run_query env0;
     run_download := run_download env0;
     run_capture := run_capture env0;
     magic_mimetype := magic_mimetype env0;
     probe_bytes := probe_bytes env0;
     convert_bytes_png := fun _ _ => inl RuntimeError |}.

Definition req_simple : MediaRequest :=
  {| req_platform_config := pc_direct; req_url := video_url; req_uuid := u "0b7e";
     req_ytdlp_metadata := None; req_modifier := None |}.

(** Queue settings: a zero event-queue capacity, and a preprocess limit of
    one. *)
Definition cfg_queue (limit capacity : option Z) : config :=
  {| file_max_duration := file_max_duration cfg0;
     file_max_audio_only_duration := file_max_audio_only_duration cfg0;
     file_max_in_memory_file_size := file_max_in_memory_file_size cfg0;
     ytdlp_enable_thumbnail_fallback := ytdlp_enable_thumbnail_fallback cfg0;
     ffmpeg_enable_livestream_previews := ffmpeg_enable_livestream_previews cfg0;
     ffmpeg_enable_normalize_videos_to_mp4 := ffmpeg_enable_normalize_videos_to_mp4 cfg0;
     ffmpeg_enable_normalize_audio_to_mp3 := ffmpeg_enable_normalize_audio_to_mp3 cfg0;
     ffmpeg_enable_thumbnail_generation := ffmpeg_enable_thumbnail_generation cfg0;
     platforms := platforms cfg0;
     platform_configs := platform_configs cfg0;
     queue_preprocess_worker_limit := limit;
     queue_event_queue_capacity := capacity |}.

Definition cfg_cap0 : config := cfg_queue (Some 10) (Some 0).
Definition cfg_limit1 : config := cfg_queue (Some 1) (Some 10).

Definition pkt (id : pystr) : Dispatch.CommandPacket :=
  {| Dispatch.event_id := id; Dispatch.body := u "!dl" |}.

(** A command handler that accepts every packet. *)
Definition handle_ok (_ : Dispatch.CommandPacket) : exn + bool := inr true.

(** [env0] with other yt-dlp children. *)
Definition env_child (q : pystr -> query_outcome) (d : pystr -> dl_outcome) : env :=
  {| urlparse_netloc := urlparse_netloc env0;
     shlex_quote := shlex_quote env0;
     unicodedata_nfkd := unicodedata_nfkd env0;
     uuid4 := uuid4 env0;
     uuid5_url := uuid5_url env0;
     http_get := http_get env0;
     tmp_file := tmp_file env0;
     run_query := q;
     run_download := d;
     run_capture := run_capture env0;
     magic_mimetype := magic_mimetype env0;
     probe_bytes := probe_bytes env0;
     convert_bytes_png := convert_bytes_png env0 |}.

(** A query child that cannot be started for [cmd_a]. *)
Definition env_nospawn : env :=
  env_child (fun cmd => if pystr_eqb cmd (command cmd_a) then QSpawnError
                        else run_query env0 cmd) (run_download env0).

Definition cmd_empty : ytcmd := {| command := []; selected_format := u "e" |}.

End Fixtures.

(** * Properties *)

(** ** The monad *)

Lemma bind_inr_inv {A B} (m : M A) (f : A -> M B) l b :
  bind m f = (l, inr b) ->
  exists l1 a l2, m = (l1, inr a) /\ f a = (l2, inr b) /\ l = l1 ++ l2.
Proof.
  unfold bind. destruct m as [l1 [ex|a]]; [discriminate|].
  destruct (f a) as [l2 r] eqn:Hf. intros Heq. inversion Heq; subst.
  eauto 6.
Qed.

Lemma try_except_inr_inv {A} (m : M A) h l b :
  try_except m h = (l, inr b) ->
  m = (l, inr b) \/
  exists l1 ex l2, m = (l1, inl ex) /\ h ex = (l2, inr b) /\ l = l1 ++ l2.
Proof.
  unfold try_except. destruct m as [l1 [ex|a]].
  - destruct (h ex) as [l2 r] eqn:Hh. intros Heq. inversion Heq; subst. right. eauto 6.
  - intros Heq. left. exact Heq.
Qed.

Lemma bind_ret_r {A B} (m : M A) (a : A) (f : A -> M B) l :
  m = (l, inr a) -> bind m f = (l ++ fst (f a), snd (f a)).
Proof. intros ->. simpl. destruct (f a); reflexivity. Qed.


Lemma bind_ret_inv {A B} (m : M A) a l (f : A -> M B) l' b :
  m = (l, inr a) -> bind m f = (l', inr b) -> exists l'', f a = (l'', inr b).
Proof.
  intros ->. unfold bind. destruct (f a) as [l'' r]. intros Heq. inversion Heq; subst. eauto.
Qed.

Lemma try_except_inr {A} l (a : A) h : try_except (l, inr a) h = (l, inr a).
Proof. reflexivity. Qed.

Arguments bind : simpl never.
Arguments try_except : simpl never.

Ltac inv_bind H :=
  let l1 := fresh "l" in let a := fresh "a" in let l2 := fresh "l" in
  let H1 := fresh "Hm" in let H2 := fresh "Hk" in let H3 := fresh "Hl" in
  apply bind_inr_inv in H; destruct H as [l1 [a [l2 [H1 [H2 H3]]]]].

(** [_post_process] hands back the bytes it was given, or fails: the
    normalisations it could apply raise [AttributeError]. *)
Lemma post_process_data e cfg data pc modifier l d fm :
  post_process e cfg data pc modifier = (l, inr (Some (d, fm))) -> d = data.
Proof.
  unfold post_process. intros H.
  apply try_except_inr_inv in H. destruct H as [H | [l1 [ex [l2 [_ [Hh _]]]]]];
    [| inversion Hh].
  inv_bind H. destruct a as [[mime sub] ty].
  inv_bind Hk.
  assert (a = data) as ->.
  { destruct pc as [pc|]; [| inversion Hm0; reflexivity].
    repeat match goal with
           | H : context [if ?b then _ else _] |- _ => destruct b
           end; inversion Hm0; reflexivity. }
  inv_bind Hk0. inversion Hk; reflexivity.
Qed.

(** ** Thumbnail fallback *)

Lemma fallback_or_fail_fetched e cfg md pc turl tdata tr :
  ytdlp_enable_thumbnail_fallback cfg = true ->
  md_thumbnail md = Some turl -> truthy_str turl = true ->
  client_download e cfg turl pc = (tr, inr tdata) ->
  exists l, fallback_or_fail e cfg md pc = (l, inr (Some tdata, true)).
Proof.
  intros Hen Ht Htr Hcd.
  unfold fallback_or_fail, attempt_thumbnail_fallback, download_simple_media.
  rewrite Hen, Ht, Htr. simpl. rewrite Hcd. unfold bind, try_except. simpl. eauto.
Qed.

(** Either gate of a non-live item hands over to the fallback policy. *)
Lemma download_advanced_media_gated e cfg md pc uuid modifier :
  md_is_live md = false ->
  ((exists d, md_duration md = Some d /\ 0 <= select_max_duration cfg modifier < d) \/
   (exists s ms, md_filesize_approx md = Some s /\ s <> 0 /\
                 file_max_in_memory_file_size cfg = Some ms /\ ms < s)) ->
  download_advanced_media e cfg md pc uuid modifier =
  try_except (fallback_or_fail e cfg md pc) (fun _ => ret (None, false)).
Proof.
  intros Hlive Hgate. unfold download_advanced_media. rewrite Hlive.
  unfold duration_gate_section.
  destruct Hgate as [[d [Hd Hm]] | [s [ms [Hs [Hs0 [Hms Hlt]]]]]].
  - rewrite Hd. simpl.
    replace (negb (d =? 0)) with true by (symmetry; apply negb_true_iff, Z.eqb_neq; lia).
    replace (d >? select_max_duration cfg modifier) with true
      by (symmetry; apply Z.gtb_lt; lia).
    reflexivity.
  - destruct (truthy_opt_num (md_duration md) &&
              (get_default (md_duration md) 0 >? select_max_duration cfg modifier));
      [reflexivity|].
    unfold size_gate_section. rewrite Hs, Hms. simpl.
    replace (negb (s =? 0)) with true by (symmetry; apply negb_true_iff, Z.eqb_neq; lia).
    replace (s >? ms) with true by (symmetry; apply Z.gtb_lt; lia).
    reflexivity.
Qed.

(** C1.  For a request of a yt-dlp platform whose metadata declares a
    non-live item with a duration above the (non-negative) duration ceiling,
    or an approximate size above the configured size ceiling, with thumbnail
    fallback enabled, a thumbnail URL present and the thumbnail fetch
    succeeding with bytes [tdata]: the primary artifact [process_request]
    returns has origin [advanced-thumbnail-fallback], its [size] is the
    length of [tdata], and its [meta_duration] and [meta_size] are the
    declared [duration] and [filesize_approx]. *)
Theorem thumbnail_fallback_round_trip e cfg req md turl tdata tr_fetch tr m :
  pc_ytdlp (req_platform_config req) = true ->
  req_ytdlp_metadata req = Some md ->
  md_is_live md = false ->
  ((exists d, md_duration md = Some d /\
              0 <= select_max_duration cfg (req_modifier req) < d) \/
   (exists s ms, md_filesize_approx md = Some s /\ s <> 0 /\
                 file_max_in_memory_file_size cfg = Some ms /\ ms < s)) ->
  ytdlp_enable_thumbnail_fallback cfg = true ->
  md_thumbnail md = Some turl -> truthy_str turl = true ->
  client_download e cfg turl (req_platform_config req) = (tr_fetch, inr tdata) ->
  process_request e cfg req = (tr, inr (Some m)) ->
  mi_origin (mf_metadata (content m)) = OAdvancedThumbnailFallback /\
  mi_size (mf_metadata (content m)) = Z.of_nat (length tdata) /\
  mi_meta_duration (mf_metadata (content m)) = md_duration md /\
  mi_meta_size (mf_metadata (content m)) = md_filesize_approx md.
Proof.
  intros Hyt Hmd Hlive Hgate Hen Ht Htr Hcd Hpr.
  destruct (fallback_or_fail_fetched e cfg md (req_platform_config req) turl tdata
              tr_fetch Hen Ht Htr Hcd) as [lf Hf].
  unfold process_request in Hpr. inv_bind Hpr.
  unfold primary_media_controller in Hm. rewrite Hyt, Hmd in Hm. simpl in Hm.
  rewrite (download_advanced_media_gated e cfg md _ (req_uuid req) (req_modifier req)
             Hlive Hgate) in Hm.
  rewrite Hf, try_except_inr in Hm.
  destruct (bind_ret_inv _ _ _ _ _ _ eq_refl Hm) as [lp Hp]. clear Hm. simpl in Hp.
  destruct (truthy_bytes tdata); simpl in Hp; [| inversion Hp; subst; inversion Hk].
  rename Hp into Hm.
  inv_bind Hm. destruct a0 as [[d fm]|]; [| inversion Hk0; subst; inversion Hk].
  apply post_process_data in Hm0. subst d.
  apply bind_inr_inv in Hk0 as [? [f [? [Hpa [Hret ?]]]]].
  inversion Hret; subst a. clear Hret.
  unfold process_advanced_media in Hpa.
  apply bind_inr_inv in Hpa as [? [wurl [? [_ [Hco ?]]]]].
  unfold create_media_object in Hco.
  apply bind_inr_inv in Hco as [? [[[mime ext] ty] [? [_ [Hmk ?]]]]].
  apply bind_inr_inv in Hk as [? [th [? [_ [Hres ?]]]]].
  inversion Hres; subst m. simpl in Hmk.
  destruct (pystr_eqb ty (u "audio")); inversion Hmk; subst; simpl; auto.
Qed.

(** A request for which every hypothesis of C1 holds and a result is returned. *)
Lemma thumbnail_fallback_round_trip_witness :
  exists m,
  process_request Fixtures.env0 Fixtures.cfg0 Fixtures.req_long =
    (fst (process_request Fixtures.env0 Fixtures.cfg0 Fixtures.req_long), inr (Some m)) /\
  mi_origin (mf_metadata (content m)) = OAdvancedThumbnailFallback /\
  mi_size (mf_metadata (content m)) = Z.of_nat (length Fixtures.png_bytes) /\
  mi_meta_duration (mf_metadata (content m)) = md_duration Fixtures.md_long /\
  mi_meta_size (mf_metadata (content m)) = md_filesize_approx Fixtures.md_long.
Proof.
  eexists.
  split; [vm_compute; reflexivity |].
  apply (thumbnail_fallback_round_trip Fixtures.env0 Fixtures.cfg0 Fixtures.req_long
           Fixtures.md_long Fixtures.thumb_url Fixtures.png_bytes
           (fst (client_download Fixtures.env0 Fixtures.cfg0 Fixtures.thumb_url
                   Fixtures.pc_youtube))
           (fst (process_request Fixtures.env0 Fixtures.cfg0 Fixtures.req_long))).
  - reflexivity.
  - reflexivity.
  - reflexivity.
  - left. exists 99999. split; [reflexivity | vm_compute; split; [discriminate | reflexivity]].
  - reflexivity.
  - reflexivity.
  - reflexivity.
  - vm_compute. reflexivity.
  - vm_compute. reflexivity.
Defined.

(** ** The duration gate *)

(** C2.  For a non-live item with declared duration [d] and a non-negative
    ceiling [m] (the audio-only ceiling under [force_audio_only], the general
    one otherwise): when [d <= m], in particular [d = m], the duration gate
    lets the request through to the size gate and the download; when
    [m < d] the thumbnail-fallback-or-fail policy decides the result. *)
Theorem duration_gate_boundary e cfg md pc uuid modifier d :
  md_is_live md = false ->
  md_duration md = Some d ->
  0 <= select_max_duration cfg modifier ->
  (d <= select_max_duration cfg modifier ->
   download_advanced_media e cfg md pc uuid modifier =
   try_except (size_gate_section e cfg md pc uuid modifier) (fun _ => ret (None, false))) /\
  (select_max_duration cfg modifier < d ->
   download_advanced_media e cfg md pc uuid modifier =
   try_except (fallback_or_fail e cfg md pc) (fun _ => ret (None, false))).
Proof.
  intros Hlive Hd Hm. unfold download_advanced_media, duration_gate_section.
  rewrite Hlive, Hd. simpl. split; intros Hle.
  - replace (d >? select_max_duration cfg modifier) with false
      by (symmetry; rewrite Z.gtb_ltb; apply Z.ltb_ge; lia).
    rewrite andb_false_r. reflexivity.
  - replace (negb (d =? 0)) with true by (symmetry; apply negb_true_iff, Z.eqb_neq; lia).
    replace (d >? select_max_duration cfg modifier) with true
      by (symmetry; apply Z.gtb_lt; lia).
    reflexivity.
Qed.

(** The ceiling chosen for each modifier. *)
Lemma select_max_duration_cases cfg modifier :
  select_max_duration cfg modifier =
  if is_force_audio_only modifier
  then get_default (file_max_audio_only_duration cfg) 0
  else get_default (file_max_duration cfg) 0.
Proof. reflexivity. Qed.

(** C2 at the boundary: a declared duration of exactly 600 against the
    ceiling 600. *)
Lemma duration_gate_boundary_witness :
  md_is_live Fixtures.md_at_ceiling = false /\
  md_duration Fixtures.md_at_ceiling = Some 600 /\
  0 <= select_max_duration Fixtures.cfg0 None /\
  download_advanced_media Fixtures.env0 Fixtures.cfg0 Fixtures.md_at_ceiling Fixtures.pc_youtube
    (u "0b7e") None =
  try_except (size_gate_section Fixtures.env0 Fixtures.cfg0 Fixtures.md_at_ceiling
                Fixtures.pc_youtube (u "0b7e") None)
    (fun _ => ret (None, false)).
Proof.
  split; [reflexivity|]. split; [reflexivity|].
  split; [vm_compute; discriminate|].
  apply (duration_gate_boundary Fixtures.env0 Fixtures.cfg0 Fixtures.md_at_ceiling
           Fixtures.pc_youtube (u "0b7e") None 600).
  - reflexivity.
  - reflexivity.
  - vm_compute. discriminate.
  - vm_compute. discriminate.
Defined.

(** ** The realized-size violation *)

Lemma download_attempt_returns e c dir :
  exists l st, download_attempt e c dir = (l, inr st).
Proof.
  unfold download_attempt, emit, bind. simpl.
  destruct (run_download e (command c)) as [|rc stderr files]; simpl; eauto.
  destruct (negb (rc =? 0)); [destruct (is_non_retryable (error_message_of stderr)); simpl; eauto|].
  destruct files as [|x [|y files]]; simpl; eauto.
Qed.

Lemma ytdlp_execute_download_loop_no_size_error e cmds dir last :
  snd (ytdlp_execute_download_loop e cmds dir last) <> inl DownloadSizeExceededError.
Proof.
  revert last. induction cmds as [|c cmds IH]; intros last; simpl.
  - discriminate.
  - destruct (negb (truthy_str (command c))); [apply IH|].
    destruct (download_attempt_returns e c dir) as [l [st Hst]]. rewrite Hst.
    unfold bind, emit. simpl.
    destruct st as [data| |ex]; simpl.
    + discriminate.
    + discriminate.
    + specialize (IH (Some ex)).
      destruct (ytdlp_execute_download_loop e cmds dir (Some ex)) as [l' r].
      simpl in *. exact IH.
Qed.

(** C3 (code bug).  [ytdlp_execute_download] never raises
    [DownloadSizeExceededError], whatever the commands and the child
    processes do, so the [except DownloadSizeExceededError] fallback of
    [_download_advanced_media] is never taken.  At the failing input a
    60-second video without a declared size downloads as 23 bytes against a
    10-byte limit: the download is accepted whole, post-processing rejects
    it, and [process_request] returns [None], although thumbnail fallback is
    enabled and the thumbnail fetch succeeds. *)
Theorem realized_size_violation_no_fallback :
  (forall e commands uuid,
     snd (ytdlp_execute_download e commands uuid) <> inl DownloadSizeExceededError) /\
  ytdlp_enable_thumbnail_fallback Fixtures.cfg0 = true /\
  file_max_in_memory_file_size Fixtures.cfg0 = Some 10 /\
  snd (download_advanced_media Fixtures.env_big Fixtures.cfg0 Fixtures.md_short
         Fixtures.pc_youtube (u "0b7e") None) =
    inr (Some Fixtures.big_mp4_bytes, false) /\
  length Fixtures.big_mp4_bytes = 23%nat /\
  snd (client_download Fixtures.env_big Fixtures.cfg0 Fixtures.thumb_url
         Fixtures.pc_youtube) = inr Fixtures.png_bytes /\
  snd (process_request Fixtures.env_big Fixtures.cfg0 Fixtures.req_short) = inr None.
Proof.
  split.
  - intros e commands uuid. apply ytdlp_execute_download_loop_no_size_error.
  - repeat split; vm_compute; reflexivity.
Qed.

(** ** Profile lookup before any I/O *)

(** C4.  When the platform-profile lookup for the request's normalized
    domain fails (no config key for the domain, or an empty or missing
    config), [create_media_request] returns [None] having performed no
    effect at all: no HTTP request, no cookie-file access, no yt-dlp query,
    no child process. *)
Theorem profile_miss_no_io e cfg url modifier query_derived :
  get_platform_config cfg (get_domain e url) query_derived = None ->
  create_media_request e cfg url modifier query_derived = ([], inr None).
Proof.
  intros Hmiss. unfold create_media_request. rewrite Hmiss. reflexivity.
Qed.

(** C4 on a URL whose domain [nowhere.org] has no platform entry. *)
Lemma profile_miss_no_io_witness :
  get_platform_config Fixtures.cfg0
    (get_domain Fixtures.env0 (u "https://nowhere.org/x")) false = None /\
  create_media_request Fixtures.env0 Fixtures.cfg0 (u "https://nowhere.org/x") None false =
  ([], inr None).
Proof.
  split; [vm_compute; reflexivity|].
  apply profile_miss_no_io. vm_compute. reflexivity.
Defined.

(** ** The fetch adapter *)

Lemma stream_chunks_events cap total chunks out :
  forallb (fun ev => negb (is_http_get ev)) (fst (stream_chunks cap total chunks out)) = true.
Proof.
  revert total out. induction chunks as [|c chunks IH]; intros total out; simpl.
  - reflexivity.
  - unfold bind, emit. simpl.
    destruct ((cap >? 0) && (total + Z.of_nat (length c) >? cap)); simpl.
    + reflexivity.
    + specialize (IH (total + Z.of_nat (length c)) (out ++ c)).
      destruct (stream_chunks cap (total + Z.of_nat (length c)) chunks (out ++ c)).
      simpl in *. exact IH.
Qed.

Lemma count_http_gets_app l1 l2 :
  count_http_gets (l1 ++ l2) = (count_http_gets l1 + count_http_gets l2)%nat.
Proof. unfold count_http_gets. rewrite filter_app, length_app. reflexivity. Qed.

Lemma count_http_gets_none l :
  forallb (fun ev => negb (is_http_get ev)) l = true -> count_http_gets l = 0%nat.
Proof.
  unfold count_http_gets. induction l as [|ev l IH]; simpl; [reflexivity|].
  destruct (is_http_get ev); simpl; [discriminate|]. exact IH.
Qed.

Lemma stream_chunks_abort cap pre c post total out :
  0 < cap ->
  total + total_len pre <= cap < total + total_len pre + Z.of_nat (length c) ->
  (forall k, (k <= length pre)%nat -> 0 <= total) ->
  stream_chunks cap total (pre ++ c :: post) out =
  (map (fun ch => EvHttpChunk (length ch)) (pre ++ [c]), inl RuntimeError).
Proof.
  revert total out. induction pre as [|p pre IH]; intros total out Hcap Hb Hnn; simpl in *.
  - unfold bind, emit. simpl.
    replace ((cap >? 0) && (total + Z.of_nat (length c) >? cap)) with true.
    + reflexivity.
    + symmetry. apply andb_true_iff. split; apply Z.gtb_lt; lia.
  - unfold bind, emit. simpl.
    replace ((cap >? 0) && (total + Z.of_nat (length p) >? cap)) with false.
    + rewrite (IH (total + Z.of_nat (length p)) (out ++ p)); [reflexivity | lia | lia |].
      intros. specialize (Hnn 0%nat ltac:(lia)). lia.
    + symmetry. apply andb_false_iff. right. rewrite Z.gtb_ltb. apply Z.ltb_ge.
      assert (0 <= total_len pre).
      { clear. induction pre; simpl; lia. }
      lia.
Qed.

Lemma stream_chunks_nocap cap total chunks out :
  cap <= 0 ->
  stream_chunks cap total chunks out =
  (map (fun ch => EvHttpChunk (length ch)) chunks, inr (out ++ concat chunks)).
Proof.
  intros Hcap. revert total out. induction chunks as [|c chunks IH]; intros total out; simpl.
  - rewrite app_nil_r. reflexivity.
  - unfold bind, emit. simpl.
    replace ((cap >? 0) && (total + Z.of_nat (length c) >? cap)) with false.
    + rewrite IH, app_assoc. reflexivity.
    + symmetry. apply andb_false_iff. left. rewrite Z.gtb_ltb.
      apply Z.ltb_ge. lia.
Qed.

(** C5 (as the code has it).  [client_download] subscripts
    [enable_proxy], [enable_custom_user_agent] and, when that flag is set,
    [custom_user_agent] before its loop and outside its [try]: a missing key
    raises [KeyError] before any request.  Once the proxy and headers are
    read it issues exactly one HTTP request, whatever the server does: there
    is no retry, after a transport failure, a non-200 status or a size abort
    alike.  When the cap is positive and chunk [c] is the first to take the
    running total over it, the call reads no chunk after [c], sleeps once,
    and raises without returning data.  When the cap is 0 or below (0 is the
    default of a missing key) the size is not checked: a 200 response is
    returned whole. *)
Theorem client_download_single_attempt e cfg url pc :
  ((pc_enable_proxy pc = None \/ pc_enable_custom_user_agent pc = None \/
    (pc_enable_custom_user_agent pc = Some true /\ pc_custom_user_agent pc = None)) ->
   client_download e cfg url pc = ([], inl KeyError)) /\
  (forall proxy headers,
     client_download_proxy pc = ([], inr proxy) ->
     client_download_headers pc = ([], inr headers) ->
     count_http_gets (fst (client_download e cfg url pc)) = 1%nat /\
     (forall pre c post,
        0 < max_file_size_or_0 cfg ->
        http_get e url proxy headers 1 = HttpResponse 200 (pre ++ c :: post) ->
        total_len pre <= max_file_size_or_0 cfg < total_len pre + Z.of_nat (length c) ->
        client_download e cfg url pc =
        (EvHttpGet url 1 :: map (fun ch => EvHttpChunk (length ch)) (pre ++ [c]) ++ [EvSleep 1],
         inl RuntimeError)) /\
     (forall chunks,
        max_file_size_or_0 cfg <= 0 ->
        http_get e url proxy headers 1 = HttpResponse 200 chunks ->
        client_download e cfg url pc =
        (EvHttpGet url 1 :: map (fun ch => EvHttpChunk (length ch)) chunks,
         inr (concat chunks)))).
Proof.
  split.
  - unfold client_download, client_download_proxy, client_download_headers.
    intros [Hp | [Hu | [Hu Ha]]].
    + rewrite Hp. reflexivity.
    + destruct (pc_enable_proxy pc) as [b|]; [|reflexivity].
      rewrite (bind_ret_r _ b _ [] eq_refl). simpl.
      rewrite Hu. reflexivity.
    + destruct (pc_enable_proxy pc) as [b|]; [|reflexivity].
      rewrite (bind_ret_r _ b _ [] eq_refl). simpl.
      rewrite Hu, Ha. reflexivity.
  - intros proxy headers Hp Hh.
    assert (Hcd : client_download e cfg url pc =
                  client_download_loop e url proxy headers (max_file_size_or_0 cfg) 1 max_retries).
    { unfold client_download. rewrite (bind_ret_r _ proxy _ [] Hp). cbn beta.
      rewrite (bind_ret_r _ headers _ [] Hh). cbn [app fst snd].
      rewrite <- !surjective_pairing. reflexivity. }
    rewrite Hcd. clear Hcd Hp Hh.
    split; [|split].
    + unfold client_download_loop, max_retries,
        client_download_attempt, try_except, bind, emit. simpl.
      destruct (http_get e url proxy headers 1) as [status chunks|]; simpl.
      * destruct (negb (status =? 200)); simpl; [reflexivity|].
        pose proof (stream_chunks_events (max_file_size_or_0 cfg) 0 chunks []) as Hs.
        destruct (stream_chunks (max_file_size_or_0 cfg) 0 chunks []) as [l [ex|d]];
          simpl in *.
        all: rewrite !app_nil_r; unfold count_http_gets; simpl;
             rewrite ?filter_app, ?length_app;
             fold (count_http_gets l); rewrite (count_http_gets_none l Hs); reflexivity.
      * reflexivity.
    + intros pre c post Hcap Hget Hb.
      unfold client_download_loop, max_retries,
        client_download_attempt, try_except, bind, emit. simpl.
      rewrite Hget. simpl.
      rewrite (stream_chunks_abort _ pre c post 0 []); [| lia | lia | intros; lia].
      simpl. rewrite app_nil_r. reflexivity.
    + intros chunks Hcap Hget.
      unfold client_download_loop, max_retries,
        client_download_attempt, try_except, bind, emit. simpl.
      rewrite Hget. simpl.
      rewrite (stream_chunks_nocap _ 0 chunks [] Hcap). simpl.
      rewrite !app_nil_r. reflexivity.
Qed.

(** C5 at a platform with no [enable_proxy] key, at a 10-byte cap with
    three 4-byte chunks (the third chunk aborts), and with no cap at all
    and a custom User-Agent (two 6-byte chunks are returned whole). *)
Lemma client_download_single_attempt_witness :
  pc_enable_proxy Fixtures.pc_nokeys = None /\
  client_download Fixtures.env0 Fixtures.cfg0 Fixtures.thumb_url Fixtures.pc_nokeys =
    ([], inl KeyError) /\
  client_download_proxy Fixtures.pc_direct = ([], inr None) /\
  client_download_headers Fixtures.pc_direct = ([], inr []) /\
  0 < max_file_size_or_0 Fixtures.cfg0 /\
  http_get Fixtures.env_chunks Fixtures.thumb_url None [] 1 =
    HttpResponse 200 ([Fixtures.png_bytes; Fixtures.png_bytes] ++ Fixtures.png_bytes :: []) /\
  client_download Fixtures.env_chunks Fixtures.cfg0 Fixtures.thumb_url Fixtures.pc_direct =
  (EvHttpGet Fixtures.thumb_url 1 ::
     map (fun ch => EvHttpChunk (length ch))
       ([Fixtures.png_bytes; Fixtures.png_bytes] ++ [Fixtures.png_bytes]) ++ [EvSleep 1],
   inl RuntimeError) /\
  client_download_headers Fixtures.pc_ua = ([], inr [(u "User-Agent", u "origami")]) /\
  max_file_size_or_0 Fixtures.cfg_nocap <= 0 /\
  client_download Fixtures.env0 Fixtures.cfg_nocap Fixtures.video_url Fixtures.pc_ua =
    (EvHttpGet Fixtures.video_url 1 ::
       map (fun ch => EvHttpChunk (length ch)) [Fixtures.mp4_bytes; Fixtures.mp4_bytes],
     inr (concat [Fixtures.mp4_bytes; Fixtures.mp4_bytes])).
Proof.
  split; [reflexivity|].
  split.
  { apply (proj1 (client_download_single_attempt Fixtures.env0 Fixtures.cfg0
                    Fixtures.thumb_url Fixtures.pc_nokeys)).
    left. reflexivity. }
  split; [reflexivity|]. split; [reflexivity|].
  split; [vm_compute; reflexivity|]. split; [reflexivity|].
  split.
  { apply (proj1 (proj2 (proj2 (client_download_single_attempt Fixtures.env_chunks Fixtures.cfg0
                  Fixtures.thumb_url Fixtures.pc_direct) None [] eq_refl eq_refl))
           [Fixtures.png_bytes; Fixtures.png_bytes] Fixtures.png_bytes []).
    - vm_compute. reflexivity.
    - reflexivity.
    - vm_compute. split; [discriminate | reflexivity]. }
  split; [reflexivity|].
  split; [vm_compute; discriminate|].
  apply (proj2 (proj2 (proj2 (client_download_single_attempt Fixtures.env0 Fixtures.cfg_nocap
                Fixtures.video_url Fixtures.pc_ua) None [(u "User-Agent", u "origami")]
                eq_refl eq_refl))).
  - vm_compute. discriminate.
  - reflexivity.
Defined.

(** C5 as stated fails: a transport failure is not retried even though the
    second attempt would succeed, and with no configured cap (the default
    0) a stream longer than the cap is returned whole. *)
Lemma client_download_retry_counterexample :
  http_get Fixtures.env_flaky Fixtures.thumb_url None [] 2 =
    HttpResponse 200 [Fixtures.png_bytes] /\
  client_download Fixtures.env_flaky Fixtures.cfg0 Fixtures.thumb_url Fixtures.pc_direct =
    ([EvHttpGet Fixtures.thumb_url 1; EvSleep 1], inl RuntimeError) /\
  max_file_size_or_0 Fixtures.cfg_nocap = 0 /\
  client_download Fixtures.env0 Fixtures.cfg_nocap Fixtures.video_url Fixtures.pc_direct =
    ([EvHttpGet Fixtures.video_url 1; EvHttpChunk 6; EvHttpChunk 6],
     inr (Fixtures.mp4_bytes ++ Fixtures.mp4_bytes)).
Proof. repeat split; vm_compute; reflexivity. Qed.

(** ** The download command list *)

Lemma pystr_eqb_refl s : pystr_eqb s s = true.
Proof. unfold pystr_eqb. destruct (list_eq_dec Z.eq_dec s s); congruence. Qed.

Lemma pystr_eqb_eq a b : pystr_eqb a b = true <-> a = b.
Proof. unfold pystr_eqb. destruct (list_eq_dec Z.eq_dec a b); split; congruence. Qed.

Lemma ytcmd_eqb_refl c : ytcmd_eqb c c = true.
Proof. unfold ytcmd_eqb. rewrite !pystr_eqb_refl. reflexivity. Qed.

Lemma promote_format_spec qf cmds :
  ((forall x, In x cmds -> selected_format x <> qf) /\ promote_format qf cmds = cmds) \/
  (exists pre c post,
     cmds = pre ++ c :: post /\
     (forall x, In x pre -> selected_format x <> qf) /\
     selected_format c = qf /\
     promote_format qf cmds = c :: pre ++ post).
Proof.
  unfold promote_format.
  induction cmds as [|x cmds IH]; simpl.
  - left. split; [contradiction | reflexivity].
  - destruct (pystr_eqb (selected_format x) qf) eqn:Hx.
    + right. exists [], x, cmds. apply pystr_eqb_eq in Hx.
      rewrite ytcmd_eqb_refl. repeat split; [contradiction | exact Hx].
    + assert (Hne : selected_format x <> qf).
      { intro Heq. apply pystr_eqb_eq in Heq. congruence. }
      destruct IH as [[Hall Heq] | [pre [c [post [Hc [Hpre [Hfc Heq]]]]]]].
      * left. split.
        -- intros y [<-|Hy]; [exact Hne | exact (Hall y Hy)].
        -- destruct (find (fun cmd => pystr_eqb (selected_format cmd) qf) cmds) eqn:F;
             [|reflexivity].
           apply find_some in F as [Hin Hp]. apply pystr_eqb_eq in Hp.
           exfalso. exact (Hall _ Hin Hp).
      * right. exists (x :: pre), c, post. repeat split.
        -- rewrite Hc. reflexivity.
        -- intros y [<-|Hy]; [exact Hne | exact (Hpre y Hy)].
        -- exact Hfc.
        -- destruct (find (fun cmd => pystr_eqb (selected_format cmd) qf) cmds) as [p|] eqn:F.
           2:{ exfalso. assert (Hin : In c cmds) by (rewrite Hc; apply in_elt).
               pose proof (find_none _ _ F c Hin) as Hf. simpl in Hf.
               rewrite Hfc, pystr_eqb_refl in Hf. discriminate. }
           injection Heq as Hpc Hrem. subst p. simpl.
           assert (Hxc : ytcmd_eqb x c = false).
           { unfold ytcmd_eqb. destruct (pystr_eqb (command x) (command c)); [|reflexivity].
             simpl. destruct (pystr_eqb (selected_format x) (selected_format c)) eqn:E;
               [|reflexivity].
             apply pystr_eqb_eq in E. rewrite Hfc in E. contradiction. }
           rewrite Hxc, Hrem. reflexivity.
Qed.

Ltac step_other IH Hrest :=
  match goal with
  | |- context [ytdlp_execute_download_loop ?e ?cmds ?dir ?lst] =>
      specialize (IH lst Hrest);
      destruct (ytdlp_execute_download_loop e cmds dir lst) as [l r];
      destruct (spec_try_each (dl_class_of e) cmds) as [tried o];
      simpl in *; destruct IH as [IH1 IH2]; rewrite IH1; split; [reflexivity | exact IH2]
  end.

Lemma download_loop_refines e cmds dir last :
  Forall (fun c => truthy_str (command c) = true) cmds ->
  spawned (fst (ytdlp_execute_download_loop e cmds dir last)) =
    fst (spec_try_each (dl_class_of e) cmds) /\
  snd (ytdlp_execute_download_loop e cmds dir last) =
    match snd (spec_try_each (dl_class_of e) cmds) with
    | Some d => inr d
    | None => inl RuntimeError
    end.
Proof.
  revert last. induction cmds as [|c cmds IH]; intros last Hall; simpl.
  - split; reflexivity.
  - inversion Hall as [|? ? Hc Hrest]; subst. rewrite Hc. simpl.
    remember (dl_class_of e c) as k eqn:Hk. unfold dl_class_of in Hk.
    unfold download_attempt, bind, emit. simpl.
    destruct (run_download e (command c)) as [|rc stderr files]; simpl.
    + subst k. step_other IH Hrest.
    + destruct (negb (rc =? 0)); simpl.
      * destruct (is_non_retryable (error_message_of stderr)); simpl; subst k.
        -- split; reflexivity.
        -- step_other IH Hrest.
      * destruct files as [|d0 [|d1 files]]; simpl; subst k.
        -- step_other IH Hrest.
        -- split; reflexivity.
        -- step_other IH Hrest.
Qed.

Lemma promote_format_incl qf cmds x :
  In x (promote_format qf cmds) -> In x cmds.
Proof.
  destruct (promote_format_spec qf cmds) as [[_ ->] | [pre [c [post [-> [_ [_ ->]]]]]]].
  - exact (fun H => H).
  - intros [<-|H]; [apply in_elt|].
    apply in_app_or in H as [H|H]; apply in_or_app; [left | right; right]; exact H.
Qed.

(** C6 (as the code has it).  [_download_advanced_media] reorders the
    download commands only by moving the first command whose format is the
    query-selected one to the front, keeping the others in declared order;
    [ytdlp_execute_download] then runs them exactly as [spec_try_each]
    does, where the only failure that stops the list is a non-zero exit
    whose stderr contains [403] ([dl_class_of]): every other failure,
    a 404 included, advances to the next command. *)
Theorem download_order_policy e :
  (forall qf cmds,
     ((forall x, In x cmds -> selected_format x <> qf) /\ promote_format qf cmds = cmds) \/
     (exists pre c post,
        cmds = pre ++ c :: post /\
        (forall x, In x pre -> selected_format x <> qf) /\
        selected_format c = qf /\
        promote_format qf cmds = c :: pre ++ post)) /\
  (forall qf cmds uuid,
     Forall (fun c => truthy_str (command c) = true) cmds ->
     let run := ytdlp_execute_download e (promote_format qf cmds) uuid in
     let ref := spec_try_each (dl_class_of e) (promote_format qf cmds) in
     spawned (fst run) = fst ref /\
     snd run = match snd ref with Some d => inr d | None => inl RuntimeError end).
Proof.
  split.
  - exact promote_format_spec.
  - intros qf cmds uuid Hall. unfold ytdlp_execute_download.
    apply download_loop_refines.
    apply Forall_forall. intros x Hx.
    exact (proj1 (Forall_forall _ _) Hall x (promote_format_incl qf cmds x Hx)).
Qed.

(** C6 on two commands where the first fails with a 404: the list goes on
    to the second command, which succeeds. *)
Lemma download_order_policy_witness :
  Forall (fun c => truthy_str (command c) = true) [Fixtures.cmd_a; Fixtures.cmd_b] /\
  spawned (fst (ytdlp_execute_download Fixtures.env_404
                  (promote_format (u "a") [Fixtures.cmd_a; Fixtures.cmd_b]) (u "id"))) =
    [command Fixtures.cmd_a; command Fixtures.cmd_b] /\
  snd (ytdlp_execute_download Fixtures.env_404
         (promote_format (u "a") [Fixtures.cmd_a; Fixtures.cmd_b]) (u "id")) =
    inr Fixtures.mp4_bytes.
Proof.
  assert (Hall : Forall (fun c => truthy_str (command c) = true)
                   [Fixtures.cmd_a; Fixtures.cmd_b]) by (repeat constructor).
  destruct (proj2 (download_order_policy Fixtures.env_404) (u "a")
              [Fixtures.cmd_a; Fixtures.cmd_b] (u "id") Hall) as [H1 H2].
  split; [exact Hall|]. split.
  - rewrite H1. vm_compute. reflexivity.
  - rewrite H2. vm_compute. reflexivity.
Defined.

(** C6 as stated fails: a download that fails with a 404 does not stop the
    list; the next command runs and its data is returned. *)
Lemma download_404_counterexample :
  dl_class_of Fixtures.env_404 Fixtures.cmd_a = ClsOtherFailure /\
  spawned (fst (ytdlp_execute_download Fixtures.env_404
                  [Fixtures.cmd_a; Fixtures.cmd_b] (u "id"))) =
    [command Fixtures.cmd_a; command Fixtures.cmd_b] /\
  snd (ytdlp_execute_download Fixtures.env_404 [Fixtures.cmd_a; Fixtures.cmd_b] (u "id")) =
    inr Fixtures.mp4_bytes.
Proof. repeat split; vm_compute; reflexivity. Qed.

(** ** Artifact construction *)

Lemma sub_runs_length p b s : (length (sub_runs p b s) <= length s)%nat.
Proof.
  revert b. induction s as [|c s IH]; intros b; simpl; [lia|].
  pose proof (IH true). pose proof (IH false).
  destruct (p c); [destruct b|]; simpl; lia.
Qed.

Lemma sub_runs_in p b s c :
  In c (sub_runs p b s) -> (In c s /\ p c = false) \/ c = 95.
Proof.
  revert b. induction s as [|x s IH]; intros b; simpl; [contradiction|].
  destruct (p x) eqn:Hx; [destruct b|]; simpl.
  - intros H. destruct (IH true H) as [[? ?]|?]; auto.
  - intros [<-|H]; [auto|]. destruct (IH true H) as [[? ?]|?]; auto.
  - intros [<-|H]; [auto|]. destruct (IH false H) as [[? ?]|?]; auto.
Qed.

Lemma lstrip_by_in p s c : In c (lstrip_by p s) -> In c s.
Proof.
  induction s as [|x s IH]; simpl; [contradiction|].
  destruct (p x); [intros H; right; exact (IH H) | exact (fun H => H)].
Qed.

Lemma strip_by_in p s c : In c (strip_by p s) -> In c s.
Proof.
  unfold strip_by. intros H. apply in_rev in H. apply lstrip_by_in in H.
  apply in_rev in H. exact (lstrip_by_in _ _ _ H).
Qed.

Lemma firstn_in {A} n (s : list A) c : In c (firstn n s) -> In c s.
Proof.
  intros H. rewrite <- (firstn_skipn n s). apply in_or_app. left. exact H.
Qed.

Lemma generate_filename_safe nfkd m :
  (length (generate_filename nfkd m) <= 255)%nat /\
  forallb safe_filename_char (generate_filename nfkd m) = true.
Proof.
  unfold generate_filename. split.
  - eapply Nat.le_trans; [apply sub_runs_length|]. apply firstn_le_length.
  - apply forallb_forall. intros c Hc.
    destruct (sub_runs_in _ _ _ _ Hc) as [[Hc1 _]| ->]; [|reflexivity].
    apply firstn_in, strip_by_in in Hc1.
    destruct (sub_runs_in _ _ _ _ Hc1) as [[Hc2 _]| ->]; [|reflexivity].
    destruct (sub_runs_in _ _ _ _ Hc2) as [[Hc3 Hsp]| ->]; [|reflexivity].
    apply in_map_iff in Hc3 as [x [Hx Hin]].
    apply filter_In in Hin as [_ Hasc].
    destruct (is_invalid_filename_char x) eqn:Hinv; subst c; [reflexivity|].
    unfold safe_filename_char. rewrite Hasc, Hinv, Hsp. reflexivity.
Qed.

(** C7 (as the code has it).  Every artifact built by
    [_create_media_object] has [size] equal to its stream's byte length, and
    its filename is [base ++ "." ++ ext] where [ext] is the artifact's
    extension and [base] is at most 255 characters, each ASCII, outside the
    invalid class and not whitespace. *)
Theorem media_object_size_and_filename e stream om fm l mf :
  create_media_object e stream om fm = (l, inr mf) ->
  mf_stream mf = stream /\
  mi_size (mf_metadata mf) = Z.of_nat (length (mf_stream mf)) /\
  mf_filename mf = generate_filename (unicodedata_nfkd e) om ++ u "." ++ mi_ext (mf_metadata mf) /\
  (length (generate_filename (unicodedata_nfkd e) om) <= 255)%nat /\
  forallb safe_filename_char (generate_filename (unicodedata_nfkd e) om) = true.
Proof.
  intros H. unfold create_media_object, bind in H.
  destruct (get_mimetype e stream) as [l1 [ex|[[mt ext] ty]]]; simpl in H; [discriminate|].
  destruct (generate_filename_safe (unicodedata_nfkd e) om) as [Hlen Hsafe].
  destruct (om_origin om); destruct (pystr_eqb _ (u "audio"));
    injection H as _ <-; simpl; repeat split; assumption.
Qed.

(** C7 on a PNG thumbnail-sized stream. *)
Lemma media_object_size_and_filename_witness :
  exists l mf,
    create_media_object Fixtures.env0 Fixtures.png_bytes Fixtures.om_bang Fixtures.fm0 =
      (l, inr mf) /\
    mi_size (mf_metadata mf) = 4 /\
    mf_filename mf = generate_filename (unicodedata_nfkd Fixtures.env0) Fixtures.om_bang ++
                     u "." ++ mi_ext (mf_metadata mf).
Proof.
  destruct (create_media_object Fixtures.env0 Fixtures.png_bytes Fixtures.om_bang Fixtures.fm0)
    as [l [ex|mf]] eqn:H.
  - vm_compute in H. discriminate.
  - exists l, mf. split; [reflexivity|].
    destruct (media_object_size_and_filename _ _ _ _ _ _ H) as [Hs [Hsz [Hf _]]].
    split; [rewrite Hsz, Hs | exact Hf].
    reflexivity.
Defined.

(** C7 as stated fails: a title with an exclamation mark keeps it in the
    filename, and a 300-character title gives a 255-character base plus the
    extension, 259 characters; neither matches [[A-Za-z0-9_.-]{1,255}]. *)
Lemma filename_regex_counterexample :
  (exists l mf,
     create_media_object Fixtures.env0 Fixtures.png_bytes Fixtures.om_bang Fixtures.fm0 =
       (l, inr mf) /\
     mf_filename mf = u "Hello!-u-x-1.png" /\ filename_re_match (mf_filename mf) = false) /\
  (exists l mf,
     create_media_object Fixtures.env0 Fixtures.png_bytes Fixtures.om_long Fixtures.fm0 =
       (l, inr mf) /\
     length (mf_filename mf) = 259%nat /\ filename_re_match (mf_filename mf) = false).
Proof.
  split; eexists; eexists; split; [vm_compute; reflexivity | split; vm_compute; reflexivity
                                  | vm_compute; reflexivity | split; vm_compute; reflexivity].
Qed.

(** ** The thumbnail phase *)

(** C8.  Once the primary artifact exists, an exception out of
    [_thumbnail_media_controller] is the outcome of [process_request]: the
    primary is dropped.  It happens: for a direct video link whose frame
    extraction fails, the primary artifact is built, then
    [extract_thumbnail] raises and nothing catches it. *)
Theorem thumbnail_failure_escalates :
  (forall e cfg req l1 mf l2 ex,
     primary_media_controller e cfg (req_url req) (req_platform_config req)
       (req_ytdlp_metadata req) (req_uuid req) (req_modifier req) = (l1, inr (Some mf)) ->
     thumbnail_media_controller e cfg mf (req_platform_config req) (req_modifier req) =
       (l2, inl ex) ->
     process_request e cfg req = (l1 ++ l2, inl ex)) /\
  (exists l mf,
     primary_media_controller Fixtures.env_badconv Fixtures.cfg0
       (req_url Fixtures.req_simple) (req_platform_config Fixtures.req_simple)
       (req_ytdlp_metadata Fixtures.req_simple) (req_uuid Fixtures.req_simple)
       (req_modifier Fixtures.req_simple) = (l, inr (Some mf)) /\
     mi_media_type (mf_metadata mf) = u "video") /\
  snd (process_request Fixtures.env_badconv Fixtures.cfg0 Fixtures.req_simple) =
    inl RuntimeError.
Proof.
  split; [|split].
  - intros e cfg req l1 mf l2 ex Hp Ht.
    unfold process_request, bind. rewrite Hp. simpl. rewrite Ht. reflexivity.
  - eexists; eexists; split; vm_compute; reflexivity.
  - vm_compute. reflexivity.
Qed.

(** ** The dispatch queue and the preprocess set *)

Lemma put_nowait_bounded maxsize q p q' :
  0 < maxsize -> (Z.of_nat (length q) <= maxsize) ->
  Dispatch.put_nowait maxsize q p = inr q' -> Z.of_nat (length q') <= maxsize.
Proof.
  unfold Dispatch.put_nowait, Dispatch.queue_full. intros Hm Hq H.
  destruct ((maxsize >? 0) && (Z.of_nat (length q) >=? maxsize)) eqn:Hf; [discriminate|].
  injection H as <-. rewrite length_app. simpl.
  apply andb_false_iff in Hf as [Hf|Hf].
  - rewrite Z.gtb_ltb in Hf. apply Z.ltb_ge in Hf. lia.
  - rewrite Z.geb_leb in Hf. apply Z.leb_gt in Hf. lia.
Qed.

Lemma reachable_bounded maxsize q :
  0 < maxsize -> Dispatch.reachable maxsize q -> Z.of_nat (length q) <= maxsize.
Proof.
  intros Hm H. induction H as [|q q' Hr IH Hs]; simpl; [lia|].
  destruct Hs as [q p q' Hput | q p Hput | x q].
  - exact (put_nowait_bounded maxsize q p q' Hm IH Hput).
  - exact IH.
  - simpl in IH. lia.
Qed.

(** C9 (as the code has it).  With a positive capacity, every queue the
    put and get operations reach holds at most capacity items.  An accepted
    packet that passes the limit check is appended with [put_nowait] when
    the queue has room and dropped, the queue unchanged, when it is full;
    [preprocess] never waits on the queue. *)
Theorem event_queue_bounded_nonblocking cfg handle :
  (forall q,
     0 < Dispatch.event_queue_capacity cfg ->
     Dispatch.reachable (Dispatch.event_queue_capacity cfg) q ->
     Z.of_nat (length q) <= Dispatch.event_queue_capacity cfg) /\
  (forall st p,
     Dispatch.is_allowed cfg (Dispatch.set_add (Dispatch.event_id p)
                                (Dispatch.preprocess_tasks st)) = true ->
     handle p = inr true ->
     Dispatch.event_queue (Dispatch.preprocess cfg handle st p) =
       if Dispatch.queue_full (Dispatch.event_queue_capacity cfg) (Dispatch.event_queue st)
       then Dispatch.event_queue st
       else Dispatch.event_queue st ++ [p]).
Proof.
  split.
  - intros q Hm Hr. exact (reachable_bounded _ q Hm Hr).
  - intros st p Ha Hh. unfold Dispatch.preprocess. rewrite Ha, Hh. simpl.
    unfold Dispatch.put_nowait.
    destruct (Dispatch.queue_full _ _); reflexivity.
Qed.

(** C9 at a capacity of 10: a queue of one item is reachable and within the
    bound; a packet offered to a queue with room is appended. *)
Lemma event_queue_bounded_nonblocking_witness :
  0 < Dispatch.event_queue_capacity Fixtures.cfg0 /\
  Z.of_nat (length [Fixtures.pkt (u "a")]) <= Dispatch.event_queue_capacity Fixtures.cfg0 /\
  Dispatch.event_queue
    (Dispatch.preprocess Fixtures.cfg0 Fixtures.handle_ok
       {| Dispatch.preprocess_tasks := []; Dispatch.event_queue := [] |} (Fixtures.pkt (u "a"))) =
    [Fixtures.pkt (u "a")].
Proof.
  assert (Hm : 0 < Dispatch.event_queue_capacity Fixtures.cfg0) by (vm_compute; reflexivity).
  destruct (event_queue_bounded_nonblocking Fixtures.cfg0 Fixtures.handle_ok) as [H1 H2].
  split; [exact Hm|]. split.
  - apply (H1 [Fixtures.pkt (u "a")] Hm).
    apply (Dispatch.reach_step _ [] [Fixtures.pkt (u "a")]); [constructor|].
    apply (Dispatch.step_put _ [] (Fixtures.pkt (u "a"))). reflexivity.
  - rewrite (H2 {| Dispatch.preprocess_tasks := []; Dispatch.event_queue := [] |}
               (Fixtures.pkt (u "a"))); [reflexivity | vm_compute; reflexivity | reflexivity].
Defined.

(** C9 as stated fails: with [event_queue_capacity] set to 0 the queue is
    unbounded, so it reaches two items although the capacity is 0. *)
Lemma zero_capacity_counterexample :
  Dispatch.event_queue_capacity Fixtures.cfg_cap0 = 0 /\
  Dispatch.reachable (Dispatch.event_queue_capacity Fixtures.cfg_cap0)
    [Fixtures.pkt (u "a"); Fixtures.pkt (u "b")] /\
  Dispatch.event_queue
    (Dispatch.preprocess Fixtures.cfg_cap0 Fixtures.handle_ok
       {| Dispatch.preprocess_tasks := []; Dispatch.event_queue := [Fixtures.pkt (u "a")] |}
       (Fixtures.pkt (u "b"))) =
    [Fixtures.pkt (u "a"); Fixtures.pkt (u "b")].
Proof.
  split; [reflexivity|]. split; [|vm_compute; reflexivity].
  apply (Dispatch.reach_step _ [Fixtures.pkt (u "a")]).
  - apply (Dispatch.reach_step _ []); [constructor|].
    apply (Dispatch.step_put _ [] (Fixtures.pkt (u "a"))). reflexivity.
  - apply (Dispatch.step_put _ _ (Fixtures.pkt (u "b"))). reflexivity.
Qed.

(** C10.  [preprocess] adds the packet's id to the counted set before the
    limit check and returns on rejection before the [try]/[finally], so a
    rejected id stays in the set, while an admitted one is discarded.  With
    a limit of 1, a packet arriving while another is in flight is rejected
    and its id stays; once the other finishes, a fresh packet arriving with
    nothing in flight is still rejected, and the queue never receives it. *)
Theorem rejected_id_leaks :
  (forall cfg handle st p,
     Dispatch.is_allowed cfg (Dispatch.set_add (Dispatch.event_id p)
                                (Dispatch.preprocess_tasks st)) = false ->
     In (Dispatch.event_id p) (Dispatch.preprocess_tasks (Dispatch.preprocess cfg handle st p))) /\
  (forall cfg handle st p,
     Dispatch.is_allowed cfg (Dispatch.set_add (Dispatch.event_id p)
                                (Dispatch.preprocess_tasks st)) = true ->
     ~ In (Dispatch.event_id p) (Dispatch.preprocess_tasks (Dispatch.preprocess cfg handle st p))) /\
  (let st0 := {| Dispatch.preprocess_tasks := [u "a"]; Dispatch.event_queue := [] |} in
   let st1 := Dispatch.preprocess Fixtures.cfg_limit1 Fixtures.handle_ok st0 (Fixtures.pkt (u "b")) in
   let st2 := {| Dispatch.preprocess_tasks :=
                   Dispatch.set_discard (u "a") (Dispatch.preprocess_tasks st1);
                 Dispatch.event_queue := Dispatch.event_queue st1 |} in
   let st3 := Dispatch.preprocess Fixtures.cfg_limit1 Fixtures.handle_ok st2 (Fixtures.pkt (u "c")) in
   Dispatch.preprocess_tasks st2 = [u "b"] /\
   Dispatch.preprocess_tasks st3 = [u "c"; u "b"] /\
   Dispatch.event_queue st3 = []).
Proof.
  split; [|split].
  - intros cfg handle st p Ha. unfold Dispatch.preprocess. rewrite Ha. simpl.
    unfold Dispatch.set_add.
    destruct (existsb (pystr_eqb (Dispatch.event_id p)) (Dispatch.preprocess_tasks st)) eqn:E.
    + apply existsb_exists in E as [x [Hx Heq]]. apply pystr_eqb_eq in Heq. subst x. exact Hx.
    + left. reflexivity.
  - intros cfg handle st p Ha. unfold Dispatch.preprocess. rewrite Ha. simpl.
    unfold Dispatch.set_discard. intros Hin. apply filter_In in Hin as [_ Hn].
    rewrite pystr_eqb_refl in Hn. discriminate.
  - vm_compute. repeat split.
Qed.

(** * Further properties of the modelled code *)

(** ** Image signatures *)

Lemma bytes_startswith_app p s x :
  bytes_startswith p s = true -> bytes_startswith p (s ++ x) = true.
Proof.
  revert s. induction p as [|c p IH]; intros [|d s]; simpl; try discriminate; auto.
  intros H. apply andb_true_iff in H as [H1 H2]. rewrite H1. simpl. exact (IH s H2).
Qed.

Lemma bytes_contains_app n s x :
  bytes_contains n s = true -> bytes_contains n (s ++ x) = true.
Proof.
  induction s as [|d s IH]; simpl; intros H.
  - destruct n; [destruct x; reflexivity | discriminate].
  - apply orb_true_iff in H as [H|H].
    + apply orb_true_iff. left. exact (bytes_startswith_app _ (d :: s) x H).
    + apply orb_true_iff. right. exact (IH H).
Qed.

Lemma bytes_startswith_short p s :
  (length s < length p)%nat -> bytes_startswith p s = false.
Proof.
  revert s. induction p as [|c p IH]; intros [|d s]; simpl; intros H; try lia; auto.
  rewrite (IH s ltac:(lia)). apply andb_false_r.
Qed.

Lemma is_image_magic_number_or d :
  is_image_magic_number d =
  bytes_startswith [Byte.xff; Byte.xd8; Byte.xff] d ||
  (bytes_startswith [Byte.x89; Byte.x50; Byte.x4e; Byte.x47;
                     Byte.x0d; Byte.x0a; Byte.x1a; Byte.x0a] d ||
  ((bytes_startswith [Byte.x47; Byte.x49; Byte.x46; Byte.x38; Byte.x37; Byte.x61] d ||
    bytes_startswith [Byte.x47; Byte.x49; Byte.x46; Byte.x38; Byte.x39; Byte.x61] d) ||
  ((bytes_startswith [Byte.x49; Byte.x49; Byte.x2a; Byte.x00] d ||
    bytes_startswith [Byte.x4d; Byte.x4d; Byte.x00; Byte.x2a] d) ||
  (bytes_startswith [Byte.x42; Byte.x4d] d ||
  ((bytes_startswith [Byte.x00; Byte.x00; Byte.x01; Byte.x00] d ||
    bytes_startswith [Byte.x00; Byte.x00; Byte.x02; Byte.x00] d) ||
  ((bytes_startswith [Byte.x52; Byte.x49; Byte.x46; Byte.x46] d &&
    bytes_contains [Byte.x57; Byte.x45; Byte.x42; Byte.x50] d) ||
  (bytes_startswith [Byte.x1a; Byte.x45; Byte.xdf; Byte.xa3] d || false))))))).
Proof. reflexivity. Qed.

Lemma orb_mono a b a' b' :
  (a = true -> a' = true) -> (b = true -> b' = true) -> a || b = true -> a' || b' = true.
Proof.
  intros Ha Hb H. apply orb_true_iff in H as [H|H]; apply orb_true_iff; auto.
Qed.

Lemma andb_mono a b a' b' :
  (a = true -> a' = true) -> (b = true -> b' = true) -> a && b = true -> a' && b' = true.
Proof.
  intros Ha Hb H. apply andb_true_iff in H as [H1 H2]. apply andb_true_iff; auto.
Qed.

(** [Native._is_image_magic_number] looks at a prefix only: data it accepts
    stays accepted whatever bytes follow, and data shorter than two bytes
    (the shortest signature, BMP) is never accepted. *)
Theorem is_image_magic_number_prefix data x :
  (is_image_magic_number data = true -> is_image_magic_number (data ++ x) = true) /\
  ((length data < 2)%nat -> is_image_magic_number data = false).
Proof.
  split.
  - rewrite !is_image_magic_number_or.
    repeat first [ apply orb_mono | apply andb_mono | apply bytes_startswith_app
                 | apply bytes_contains_app | exact (fun H => H) ].
  - intros H. rewrite is_image_magic_number_or.
    rewrite !bytes_startswith_short by (simpl; lia). reflexivity.
Qed.

Lemma is_image_magic_number_prefix_witness :
  is_image_magic_number
    [Byte.x89; Byte.x50; Byte.x4e; Byte.x47; Byte.x0d; Byte.x0a; Byte.x1a; Byte.x0a] = true /\
  is_image_magic_number
    ([Byte.x89; Byte.x50; Byte.x4e; Byte.x47; Byte.x0d; Byte.x0a; Byte.x1a; Byte.x0a] ++
     [Byte.x00]) = true /\
  (length [Byte.x42] < 2)%nat /\ is_image_magic_number [Byte.x42] = false.
Proof.
  split; [reflexivity|]. split.
  - apply (proj1 (is_image_magic_number_prefix
                    [Byte.x89; Byte.x50; Byte.x4e; Byte.x47; Byte.x0d; Byte.x0a; Byte.x1a; Byte.x0a]
                    [Byte.x00])). reflexivity.
  - split; [simpl; lia|]. apply (proj2 (is_image_magic_number_prefix [Byte.x42] [])). simpl. lia.
Defined.

(** ** The file helpers of [Native] *)

Lemma dict_get_cons_eq {V} k (v : V) d : dict_get k ((k, v) :: d) = Some v.
Proof. simpl. rewrite pystr_eqb_refl. reflexivity. Qed.



(** ** yt-dlp command lists *)





(** ** Running yt-dlp *)

(** [Ytdlp.ytdlp_execute_query]: when the first non-empty command cannot be
    started, the [finally] clause reads [process] before any assignment,
    and the [UnboundLocalError] it raises escapes the loop: no later
    command runs. *)
Theorem query_first_spawn_unbound e pre c rest :
  forallb (fun c => negb (truthy_str (command c))) pre = true ->
  truthy_str (command c) = true -> run_query e (command c) = QSpawnError ->
  ytdlp_execute_query e (pre ++ c :: rest) = ([EvSpawn (command c)], inl UnboundLocalError).
Proof.
  intros Hpre Hc Hq. unfold ytdlp_execute_query.
  induction pre as [|c0 pre IH]; simpl in *.
  - rewrite Hc. simpl. rewrite Hq. reflexivity.
  - apply andb_true_iff in Hpre as [H1 H2].
    destruct (truthy_str (command c0)); [discriminate|]. simpl. exact (IH H2).
Qed.

Lemma query_first_spawn_unbound_witness :
  ytdlp_execute_query Fixtures.env_nospawn [Fixtures.cmd_empty; Fixtures.cmd_a; Fixtures.cmd_b] =
    ([EvSpawn (command Fixtures.cmd_a)], inl UnboundLocalError).
Proof.
  apply (query_first_spawn_unbound Fixtures.env_nospawn [Fixtures.cmd_empty] Fixtures.cmd_a
           [Fixtures.cmd_b]); reflexivity.
Defined.

Ltac query_ih IH H :=
  let c' := fresh "c'" in let Hin := fresh "Hin" in let Hrest := fresh "Hrest" in
  destruct (IH _ _ H) as [c' [Hin Hrest]]; exists c'; split; [right; exact Hin | exact Hrest].

(** [Ytdlp.ytdlp_execute_query] returns either the dict printed by a
    command of the list that exited with 0, tagged with that command's
    format, or [{"error": msg}] for a command that exited otherwise with a
    [403] in its message. *)
Theorem query_result_origin e cmds pb l d :
  ytdlp_execute_query_loop e cmds pb = (l, inr d) ->
  exists c, In c cmds /\ truthy_str (command c) = true /\
    ((exists stderr d0, run_query e (command c) = QExit 0 stderr (JDict (Some d0)) /\
                        d = with_selected_format d0 (selected_format c)) \/
     (exists rc stderr stdout, run_query e (command c) = QExit rc stderr stdout /\ rc <> 0 /\
        is_non_retryable (error_message_of stderr) = true /\ d = error_md (error_message_of stderr))).
Proof.
  revert pb l. induction cmds as [|c cmds IH]; intros pb l H; simpl in H; [discriminate|].
  destruct (truthy_str (command c)) eqn:Hc; simpl in H; [|query_ih IH H].
  destruct (bind_inr_inv _ _ _ _ H) as [l1 [a [l2 [_ [H2 _]]]]]. cbv beta in H2.
  destruct (run_query e (command c)) as [| |rc stderr stdout] eqn:Hq.
  - destruct pb; [query_ih IH H2 | discriminate].
  - destruct (bind_inr_inv _ _ _ _ H2) as [l3 [b [l4 [_ [H4 _]]]]]. query_ih IH H4.
  - destruct (negb (rc =? 0)) eqn:Hrc.
    + destruct (is_non_retryable (error_message_of stderr)) eqn:Hn; [|query_ih IH H2].
      injection H2 as _ <-. exists c. split; [left; reflexivity|]. split; [exact Hc|].
      right. exists rc, stderr, stdout. split; [exact Hq|]. split; [|split; [exact Hn | reflexivity]].
      apply negb_true_iff, Z.eqb_neq in Hrc. exact Hrc.
    + apply negb_false_iff, Z.eqb_eq in Hrc. subst rc.
      destruct stdout as [| |[d0|]]; try query_ih IH H2.
      injection H2 as _ <-. exists c. split; [left; reflexivity|]. split; [exact Hc|].
      left. exists stderr, d0. split; [exact Hq | reflexivity].
Qed.

Lemma query_result_origin_witness :
  exists c, In c [Fixtures.cmd_empty; Fixtures.cmd_a] /\ truthy_str (command c) = true /\
    ((exists stderr d0, run_query Fixtures.env0 (command c) = QExit 0 stderr (JDict (Some d0)) /\
        with_selected_format Fixtures.md_long (u "a") = with_selected_format d0 (selected_format c)) \/
     (exists rc stderr stdout, run_query Fixtures.env0 (command c) = QExit rc stderr stdout /\ rc <> 0 /\
        is_non_retryable (error_message_of stderr) = true /\
        with_selected_format Fixtures.md_long (u "a") = error_md (error_message_of stderr))).
Proof.
  apply (query_result_origin Fixtures.env0 [Fixtures.cmd_empty; Fixtures.cmd_a] false
           [EvSpawn (command Fixtures.cmd_a)]).
  reflexivity.
Defined.

Lemma download_attempt_cases e c dir :
  (exists data stderr, run_download e (command c) = DlExit 0 stderr [data] /\
     download_attempt e c dir =
       ([EvMakedirs dir; EvSpawn (command c); EvFileRead dir], inr (DlReturn data))) \/
  (exists st, (forall data, st <> DlReturn data) /\
     download_attempt e c dir = ([EvMakedirs dir; EvSpawn (command c)], inr st)).
Proof.
  unfold download_attempt, emit, bind. simpl.
  destruct (run_download e (command c)) as [|rc stderr files] eqn:Hd; simpl.
  - right. eexists. split; [| reflexivity]; intros data; discriminate.
  - destruct (negb (rc =? 0)) eqn:Hrc.
    + right. destruct (is_non_retryable (error_message_of stderr)); simpl;
        eexists; (split; [| reflexivity]; intros data; discriminate).
    + apply negb_false_iff, Z.eqb_eq in Hrc. subst rc.
      destruct files as [|x [|y files]]; simpl.
      * right. eexists. split; [| reflexivity]; intros data; discriminate.
      * left. exists x, stderr. split; reflexivity.
      * right. eexists. split; [| reflexivity]; intros data; discriminate.
Qed.

(** [Ytdlp.ytdlp_execute_download]: every attempt's directory is removed
    in the [finally] clause, so the trace has one cleanup per child started
    and ends with a cleanup; every failure is a [RuntimeError], whatever
    [last_exception] held; returned bytes are the one file left by a
    command of the list whose child exited with 0. *)
Theorem ytdlp_execute_download_trace e cmds dir last_exception l r :
  ytdlp_execute_download_loop e cmds dir last_exception = (l, r) ->
  length (filter is_spawn l) = length (filter is_cleanup l) /\
  (l = [] \/ exists l0, l = l0 ++ [EvCleanup dir]) /\
  (forall ex, r = inl ex -> ex = RuntimeError) /\
  (forall data, r = inr data -> exists c stderr, In c cmds /\ truthy_str (command c) = true /\
                  run_download e (command c) = DlExit 0 stderr [data]).
Proof.
  revert last_exception l r.
  induction cmds as [|c cmds IH]; intros last_exception l r H; simpl in H.
  - injection H as <- <-. split; [reflexivity|]. split; [left; reflexivity|].
    split; [intros ex Hex; injection Hex; auto | intros data Hd; discriminate].
  - destruct (truthy_str (command c)) eqn:Hc; simpl in H.
    2:{ apply IH in H as [H1 [H2 [H3 H4]]]. split; [exact H1|]. split; [exact H2|].
        split; [exact H3|]. intros data Hd. destruct (H4 data Hd) as [c' [s [Hin Hrest]]].
        exists c', s. split; [right; exact Hin | exact Hrest]. }
    destruct (download_attempt_cases e c dir) as [[data [stderr [Hd Ha]]] | [st [Hst Ha]]];
      rewrite Ha in H; unfold bind, emit in H; simpl in H.
    + injection H as <- <-. split; [reflexivity|]. split.
      * right. exists [EvMakedirs dir; EvSpawn (command c); EvFileRead dir]. reflexivity.
      * split; [intros ex Hex; discriminate|]. intros d Hd'. injection Hd' as <-.
        exists c, stderr. split; [left; reflexivity | split; assumption].
    + destruct st as [data| |ex]; [exfalso; exact (Hst data eq_refl) | |].
      * injection H as <- <-. split; [reflexivity|]. split.
        -- right. exists [EvMakedirs dir; EvSpawn (command c)]. reflexivity.
        -- split; [intros ex Hex; injection Hex; auto | intros d Hd'; discriminate].
      * destruct (ytdlp_execute_download_loop e cmds dir (Some ex)) as [l' r'] eqn:Hl.
        simpl in H. injection H as <- <-.
        destruct (IH _ _ _ Hl) as [H1 [H2 [H3 H4]]].
        split; [simpl; rewrite H1; reflexivity|]. split.
        -- right. destruct H2 as [-> | [l0 ->]].
           ++ exists [EvMakedirs dir; EvSpawn (command c)]. reflexivity.
           ++ exists (EvMakedirs dir :: EvSpawn (command c) :: EvCleanup dir :: l0). reflexivity.
        -- split; [exact H3|]. intros d Hd'. destruct (H4 d Hd') as [c' [s [Hin Hrest]]].
           exists c', s. split; [right; exact Hin | exact Hrest].
Qed.

Lemma ytdlp_execute_download_trace_witness :
  length (filter is_spawn (fst (ytdlp_execute_download_loop Fixtures.env_404
            [Fixtures.cmd_a; Fixtures.cmd_b] (u "/tmp/0b7e/") None))) =
  length (filter is_cleanup (fst (ytdlp_execute_download_loop Fixtures.env_404
            [Fixtures.cmd_a; Fixtures.cmd_b] (u "/tmp/0b7e/") None))).
Proof.
  exact (proj1 (ytdlp_execute_download_trace Fixtures.env_404 [Fixtures.cmd_a; Fixtures.cmd_b]
                  (u "/tmp/0b7e/") None _ _ eq_refl)).
Defined.

(** ** The in-memory size limit *)

Lemma extract_metadata_inr e cfg data l m :
  extract_metadata e cfg data = (l, inr m) ->
  Z.of_nat (length data) <= max_file_size_or_0 cfg.
Proof.
  unfold extract_metadata, validate_file_size.
  destruct (Z.of_nat (length data) >? max_file_size_or_0 cfg) eqn:H; simpl; [discriminate|].
  intros _. rewrite Z.gtb_ltb in H. apply Z.ltb_ge in H. exact H.
Qed.

Lemma post_process_validated e cfg data pc modifier l d fm :
  post_process e cfg data pc modifier = (l, inr (Some (d, fm))) ->
  Z.of_nat (length data) <= max_file_size_or_0 cfg.
Proof.
  unfold post_process. intros H.
  apply try_except_inr_inv in H. destruct H as [H | [l1 [ex [l2 [_ [Hh _]]]]]];
    [| inversion Hh].
  inv_bind H. destruct a as [[mime sub] ty].
  inv_bind Hk.
  assert (a = data) as ->.
  { destruct pc as [pc|]; [| inversion Hm0; reflexivity].
    repeat match goal with
           | H : context [if ?b then _ else _] |- _ => destruct b
           end; inversion Hm0; reflexivity. }
  inv_bind Hk0. exact (extract_metadata_inr _ _ _ _ _ Hm1).
Qed.

Lemma try_except_total {A} (m : M A) h :
  (forall ex, exists l r, h ex = (l, inr r)) -> exists l r, try_except m h = (l, inr r).
Proof.
  intros Hh. unfold try_except. destruct m as [l [ex|a]]; [|eauto].
  destruct (Hh ex) as [l' [r ->]]. eauto.
Qed.

Lemma post_process_total e cfg data pc modifier :
  exists l r, post_process e cfg data pc modifier = (l, inr r).
Proof. apply try_except_total. intros ex. exists [], None. reflexivity. Qed.

(** [_post_process] never raises, and data longer than
    [max_in_memory_file_size] (taken as 0 when the key is missing) always
    gives [None]: [extract_metadata] rejects it before probing. *)
Theorem post_process_oversize e cfg data pc modifier :
  max_file_size_or_0 cfg < Z.of_nat (length data) ->
  snd (post_process e cfg data pc modifier) = inr None.
Proof.
  intros Hlt. destruct (post_process_total e cfg data pc modifier) as [l [r H]].
  rewrite H. destruct r as [[d fm]|]; [|reflexivity].
  apply post_process_validated in H. lia.
Qed.

Lemma post_process_oversize_witness :
  max_file_size_or_0 Fixtures.cfg0 < Z.of_nat (length Fixtures.big_mp4_bytes) /\
  snd (post_process Fixtures.env0 Fixtures.cfg0 Fixtures.big_mp4_bytes
         (Some Fixtures.pc_youtube) None) = inr None.
Proof.
  split; [vm_compute; reflexivity|].
  apply post_process_oversize. vm_compute. reflexivity.
Defined.

Lemma create_media_object_stream e stream om fm l mf :
  create_media_object e stream om fm = (l, inr mf) -> mf_stream mf = stream.
Proof.
  intros H. unfold create_media_object, bind in H.
  destruct (get_mimetype e stream) as [l1 [ex|[[mt ext] ty]]]; simpl in H; [discriminate|].
  destruct (om_origin om); destruct (pystr_eqb _ (u "audio")); injection H as _ <-; reflexivity.
Qed.

Lemma post_processed_stream_ok e cfg data pc modifier l d fm f :
  truthy_bytes data = true ->
  post_process e cfg data pc modifier = (l, inr (Some (d, fm))) ->
  mf_stream f = data ->
  stream_ok cfg f.
Proof.
  intros Ht Hp Hc.
  apply post_process_validated in Hp. unfold stream_ok. rewrite Hc. split; [|exact Hp].
  destruct data; [discriminate | simpl; lia].
Qed.

Lemma process_simple_media_stream e d url fm l f :
  process_simple_media e d url fm = (l, inr f) -> mf_stream f = d.
Proof. apply create_media_object_stream. Qed.

Lemma process_thumbnail_media_stream e d url fm l f :
  process_thumbnail_media e d url fm = (l, inr f) -> mf_stream f = d.
Proof. apply create_media_object_stream. Qed.

Lemma process_advanced_media_stream e d md fm b l f :
  process_advanced_media e d md fm b = (l, inr f) -> mf_stream f = d.
Proof.
  unfold process_advanced_media. intros H. inv_bind H.
  exact (create_media_object_stream _ _ _ _ _ _ Hk).
Qed.

(** From [let* result := _post_process(data, ...) in] a media object built
    on the processed bytes, to [stream_ok] of that object. *)
Ltac pp_stream Hk Ht :=
  let l1 := fresh "l" in let r := fresh "r" in let l2 := fresh "l" in
  let Hpp := fresh "Hpp" in let Hk2 := fresh "Hk" in let Hl := fresh "Hl" in
  let d := fresh "d" in let fm := fresh "fm" in
  let l3 := fresh "l" in let g := fresh "g" in let l4 := fresh "l" in
  let Hob := fresh "Hob" in let Hk3 := fresh "Hk" in let Hl' := fresh "Hl" in
  apply bind_inr_inv in Hk; destruct Hk as [l1 [r [l2 [Hpp [Hk2 Hl]]]]];
  destruct r as [[d fm]|]; [| inversion Hk2];
  cbv beta iota in Hk2;
  apply bind_inr_inv in Hk2; destruct Hk2 as [l3 [g [l4 [Hob [Hk3 Hl']]]]];
  let Hgf := fresh "Hgf" in injection Hk3 as _ Hgf; subst g;
  first [ apply process_simple_media_stream in Hob
        | apply process_thumbnail_media_stream in Hob
        | apply process_advanced_media_stream in Hob ];
  try rewrite (post_process_data _ _ _ _ _ _ _ _ Hpp) in Hob;
  exact (post_processed_stream_ok _ _ _ _ _ _ _ _ _ Ht Hpp Hob).
Lemma primary_stream_ok e cfg url pc md uuid modifier l f :
  primary_media_controller e cfg url pc md uuid modifier = (l, inr (Some f)) ->
  stream_ok cfg f.
Proof.
  unfold primary_media_controller. intros H.
  destruct (negb (pc_ytdlp pc)).
  - inv_bind H. destruct a as [data|]; [|inversion Hk].
    destruct (negb (truthy_bytes data)) eqn:Ht; [inversion Hk|].
    apply negb_false_iff in Ht. pp_stream Hk Ht.
  - destruct md as [md|]; [|inversion H].
    inv_bind H. destruct a as [[data|] b]; [|inversion Hk].
    destruct (negb (truthy_bytes data)) eqn:Ht; [inversion Hk|].
    apply negb_false_iff in Ht. pp_stream Hk Ht.
Qed.

Lemma thumbnail_stream_ok e cfg primary pc modifier l f :
  thumbnail_media_controller e cfg primary pc modifier = (l, inr (Some f)) ->
  stream_ok cfg f.
Proof.
  unfold thumbnail_media_controller. intros H.
  apply bind_inr_inv in H. destruct H as [l1 [first [l2 [Hfirst [H _]]]]].
  destruct first as [f0|].
  - injection H as _ <-.
    destruct (mi_origin (mf_metadata primary)), (mi_thumbnail_url (mf_metadata primary)) as [turl|];
      try (inversion Hfirst; fail).
    destruct (negb (truthy_str turl)); [inversion Hfirst|].
    apply bind_inr_inv in Hfirst. destruct Hfirst as [l3 [data [l4 [_ [Hk _]]]]].
    destruct data as [data|]; [|inversion Hk].
    destruct (negb (truthy_bytes data)) eqn:Ht; [inversion Hk|].
    apply negb_false_iff in Ht. pp_stream Hk Ht.
  - destruct (is_force_audio_only modifier); [inversion H|].
    destruct (pystr_eqb _ (u "video")); [|inversion H].
    apply bind_inr_inv in H. destruct H as [l3 [gen [l4 [_ [H _]]]]].
    destruct (negb gen); [inversion H|].
    apply bind_inr_inv in H. destruct H as [l5 [data [l6 [_ [Hk _]]]]].
    destruct (negb (truthy_bytes data)) eqn:Ht; [inversion Hk|].
    apply negb_false_iff in Ht. pp_stream Hk Ht.
Qed.

(** [process_request]: every media file it returns, the content and the
    thumbnail alike, is non-empty and no longer than
    [max_in_memory_file_size]: each went through [_post_process], whose
    [extract_metadata] checks the size of the bytes that are kept. *)
Theorem process_request_streams_ok e cfg req l m :
  process_request e cfg req = (l, inr (Some m)) ->
  stream_ok cfg (content m) /\ (forall t, thumbnail m = Some t -> stream_ok cfg t).
Proof.
  unfold process_request. intros H.
  apply bind_inr_inv in H. destruct H as [l1 [p [l2 [Hp [H _]]]]].
  destruct p as [primary|]; [|inversion H].
  apply bind_inr_inv in H. destruct H as [l3 [t [l4 [Ht [H _]]]]].
  injection H as _ <-. simpl. split.
  - exact (primary_stream_ok _ _ _ _ _ _ _ _ _ Hp).
  - intros t' ->. exact (thumbnail_stream_ok _ _ _ _ _ _ _ Ht).
Qed.

Lemma process_request_streams_ok_witness :
  match process_request Fixtures.env0 Fixtures.cfg0 Fixtures.req_long with
  | (_, inr (Some m)) => stream_ok Fixtures.cfg0 (content m)
  | _ => False
  end.
Proof.
  exact (proj1 (process_request_streams_ok Fixtures.env0 Fixtures.cfg0 Fixtures.req_long
                  _ _ eq_refl)).
Defined.

(** Without [max_in_memory_file_size] in the configuration the limit is 0,
    so [process_request] never returns a media object: the only bytes the
    size check accepts are empty, and empty downloads are dropped before. *)
Theorem process_request_needs_size_limit e cfg req m :
  file_max_in_memory_file_size cfg = None ->
  snd (process_request e cfg req) <> inr (Some m).
Proof.
  intros Hcap Hr. unfold process_request in Hr.
  destruct (primary_media_controller e cfg (req_url req) (req_platform_config req)
              (req_ytdlp_metadata req) (req_uuid req) (req_modifier req)) as [l1 r] eqn:Hp.
  destruct r as [ex|[primary|]]; unfold bind in Hr; simpl in Hr; try discriminate.
  destruct (primary_stream_ok _ _ _ _ _ _ _ _ _ Hp) as [Hpos Hle].
  unfold max_file_size_or_0 in Hle. rewrite Hcap in Hle. simpl in Hle. lia.
Qed.

Lemma process_request_needs_size_limit_witness :
  file_max_in_memory_file_size Fixtures.cfg_nocap = None /\
  forall m, snd (process_request Fixtures.env0 Fixtures.cfg_nocap Fixtures.req_long) <> inr (Some m).
Proof.
  split; [reflexivity|]. intros m.
  apply process_request_needs_size_limit. reflexivity.
Defined.

(** ** [MediaHandler] *)

Lemma bind_snd_inr {A B} (m : M A) (k : A -> M B) b :
  snd (bind m k) = inr b -> exists a, snd m = inr a /\ snd (k a) = inr b.
Proof.
  unfold bind. destruct m as [l [ex|a]]; simpl; [discriminate|].
  destruct (k a) as [l' r] eqn:Hk. simpl. intros ->. exists a. rewrite Hk. split; reflexivity.
Qed.

Lemma bind_snd_ret {A B} (m : M A) (k : A -> M B) a :
  snd m = inr a -> snd (bind m k) = snd (k a).
Proof.
  unfold bind. destruct m as [l [ex|a']]; simpl; [discriminate|].
  intros H. injection H as ->. destruct (k a). reflexivity.
Qed.

Lemma try_except_snd_ret {A} (m : M A) (a : A) :
  (forall x, snd m = inr x -> x = a) -> snd (try_except m (fun _ => ret a)) = inr a.
Proof.
  unfold try_except. destruct m as [l [ex|x]]; simpl; intros H; [reflexivity|].
  rewrite (H x eq_refl). reflexivity.
Qed.

Lemma create_media_request_no_request e cfg url modifier query_derived r :
  snd (create_media_request e cfg url modifier query_derived) <> inr (Some r).
Proof.
  unfold create_media_request. intros H.
  destruct (get_platform_config cfg (get_domain e url) query_derived); [|discriminate].
  apply bind_snd_inr in H as [[] [_ H]].
  apply bind_snd_inr in H as [mr [_ H]]. destruct mr; discriminate.
Qed.

Lemma handler_preprocess_loop_acc e cfg urls modifier query_derived acc :
  snd (handler_preprocess_loop e cfg urls modifier query_derived acc) = inr acc.
Proof.
  revert acc. induction urls as [|url urls IH]; intros acc; [reflexivity|]. simpl.
  rewrite (bind_snd_ret _ _ acc); [apply IH|].
  apply try_except_snd_ret. intros x Hx.
  apply bind_snd_inr in Hx as [request [Hr Hx]].
  destruct request as [mr|]; [exfalso; exact (create_media_request_no_request _ _ _ _ _ _ Hr)|].
  injection Hx as ->. reflexivity.
Qed.

(** [MediaHandler.preprocess] never yields a request: [create_media_request]
    returns [None] or raises (the [MediaRequest] constructor rejects its
    keyword arguments), and [preprocess] swallows the exception.  So the
    handler calls of [CommandHandler._process_query] always end in the
    exception "No media was successfully processed". *)
Theorem media_handler_preprocess_empty e cfg up urls modifier query_derived :
  snd (media_handler_preprocess e cfg urls modifier query_derived) = inr [] /\
  snd (process_query_media e cfg up urls) = inl (Exception no_media_message).
Proof.
  split; [apply handler_preprocess_loop_acc|].
  unfold process_query_media.
  rewrite (bind_snd_ret _ _ []); [reflexivity|]. apply handler_preprocess_loop_acc.
Qed.

Lemma upload_media_uri up m l uri t :
  upload_media up m = (l, inr (uri, t)) -> truthy_str uri = true.
Proof.
  unfold upload_media. intros H. inv_bind H.
  destruct (negb (truthy_opt_str a)) eqn:Ht; [inversion Hk|].
  inv_bind Hk. injection Hk0 as _ <- _.
  destruct a as [s|]; [|discriminate]. exact (proj1 (negb_false_iff _) Ht).
Qed.

Lemma handler_process_loop_spec e cfg up reqs acc :
  exists l ps, handler_process_loop e cfg up reqs acc = (l, inr (acc ++ ps)) /\
    (length ps <= length reqs)%nat /\ Forall (fun p => truthy_str (pm_content_uri p) = true) ps.
Proof.
  revert acc. induction reqs as [|req reqs IH]; intros acc.
  - exists [], []. rewrite app_nil_r. split; [reflexivity|]. split; [reflexivity | constructor].
  - simpl.
    assert (Hstep : exists l1 ps1,
               try_except
                 (let* media_object := process_request e cfg req in
                  match media_object with
                  | None => ret acc
                  | Some m =>
                      let* '(media_uri, thumbnail_uri) := upload_media up m in
                      ret (acc ++ [{| pm_filename := mf_filename (content m);
                                      pm_content_info := mf_metadata (content m);
                                      pm_content_uri := media_uri;
                                      pm_thumbnail_info := option_map mf_metadata (thumbnail m);
                                      pm_thumbnail_uri := thumbnail_uri |}])
                  end)
                 (fun _ => ret acc) = (l1, inr (acc ++ ps1)) /\
               (length ps1 <= 1)%nat /\ Forall (fun p => truthy_str (pm_content_uri p) = true) ps1).
    { unfold try_except.
      destruct (bind (process_request e cfg req) _) as [lb [ex|x]] eqn:Hb.
      - exists lb, []. simpl. rewrite !app_nil_r. split; [reflexivity|]. split; [lia | constructor].
      - exists lb. inv_bind Hb. destruct a as [m|].
        + inv_bind Hk. destruct a as [uri t]. injection Hk0 as _ <-.
          eexists. split; [reflexivity|]. split; [simpl; lia|].
          constructor; [exact (upload_media_uri _ _ _ _ _ Hm0) | constructor].
        + injection Hk as _ <-. exists []. rewrite app_nil_r.
          split; [reflexivity|]. split; [simpl; lia | constructor]. }
    destruct Hstep as [l1 [ps1 [Hs [Hlen1 Hf1]]]]. rewrite Hs.
    destruct (IH (acc ++ ps1)) as [l2 [ps2 [Hl2 [Hlen2 Hf2]]]].
    unfold bind. rewrite Hl2. exists (l1 ++ l2), (ps1 ++ ps2).
    rewrite app_assoc. split; [reflexivity|]. split.
    + rewrite length_app. simpl. lia.
    + apply Forall_app. split; assumption.
Qed.

(** [MediaHandler.process] fails only with its own "No media was
    successfully processed" exception: every error of a request is caught
    and the request skipped.  What it returns is non-empty, has at most one
    entry per request, and every entry carries a non-empty content URI. *)
Theorem media_handler_process_result e cfg up reqs :
  (forall ex, snd (media_handler_process e cfg up reqs) = inl ex ->
              ex = Exception no_media_message) /\
  (forall ps, snd (media_handler_process e cfg up reqs) = inr ps ->
              ps <> [] /\ (length ps <= length reqs)%nat /\
              Forall (fun p => truthy_str (pm_content_uri p) = true) ps).
Proof.
  unfold media_handler_process.
  destruct (handler_process_loop_spec e cfg up reqs []) as [l [ps [H [Hlen Hf]]]].
  rewrite (bind_snd_ret _ _ ps) by (rewrite H; reflexivity).
  destruct ps as [|p ps']; simpl.
  - split; [intros ex Hex; injection Hex as <-; reflexivity | intros ps Hps; discriminate].
  - split; [intros ex Hex; discriminate|]. intros ps Hps. injection Hps as <-.
    split; [discriminate|]. split; [exact Hlen | exact Hf].
Qed.

Lemma media_handler_process_result_witness :
  match snd (media_handler_process Fixtures.env0 Fixtures.cfg0
               (fun _ _ _ => ([], inr (Some (u "mxc://hs/abc")))) [Fixtures.req_long]) with
  | inr ps => ps <> [] /\ (length ps <= length [Fixtures.req_long])%nat /\
              Forall (fun p => truthy_str (pm_content_uri p) = true) ps
  | inl _ => False
  end.
Proof.
  exact (proj2 (media_handler_process_result Fixtures.env0 Fixtures.cfg0
                  (fun _ _ _ => ([], inr (Some (u "mxc://hs/abc")))) [Fixtures.req_long])
               _ eq_refl).
Defined.

(** ** [Ffmpeg] *)

(** The frames and previews [Ffmpeg] returns are never longer than
    [max_in_memory_file_size] (0 when the key is missing), every failure of
    [capture_livestream] is a [RuntimeError], and [extract_metadata] rejects
    oversized data with [ValueError] before starting ffprobe. *)
Theorem ffmpeg_size_checks e cfg data format stream_url :
  (forall l out, extract_thumbnail e cfg data format = (l, inr out) ->
                 Z.of_nat (length out) <= max_file_size_or_0 cfg) /\
  (forall l out, capture_livestream e cfg stream_url = (l, inr out) ->
                 Z.of_nat (length out) <= max_file_size_or_0 cfg) /\
  (forall ex, snd (capture_livestream e cfg stream_url) = inl ex -> ex = RuntimeError) /\
  (max_file_size_or_0 cfg < Z.of_nat (length data) ->
   extract_metadata e cfg data = ([], inl ValueError)).
Proof.
  unfold extract_thumbnail, capture_livestream, extract_metadata, validate_file_size.
  split; [|split; [|split]].
  - intros l out H. unfold bind in H. simpl in H.
    destruct (convert_bytes_png e data format) as [ex|td]; simpl in H; [discriminate|].
    destruct (Z.of_nat (length td) >? max_file_size_or_0 cfg) eqn:Hg; simpl in H;
      [discriminate|].
    injection H as _ <-. rewrite Z.gtb_ltb in Hg. apply Z.ltb_ge in Hg. exact Hg.
  - intros l out H. unfold bind in H. simpl in H.
    destruct (run_capture e stream_url) as [[rc so]|]; simpl in H; [|discriminate].
    destruct (negb (rc =? 0)); simpl in H; [discriminate|].
    destruct (Z.of_nat (length so) >? max_file_size_or_0 cfg) eqn:Hg; simpl in H;
      [discriminate|].
    injection H as _ <-. rewrite Z.gtb_ltb in Hg. apply Z.ltb_ge in Hg. exact Hg.
  - intros ex H. unfold bind in H. simpl in H.
    destruct (run_capture e stream_url) as [[rc so]|]; simpl in H;
      [|injection H; auto].
    destruct (negb (rc =? 0)); simpl in H; [injection H; auto|].
    destruct (negb (Z.of_nat (length so) >? max_file_size_or_0 cfg)); simpl in H;
      [discriminate | injection H; auto].
  - intros Hlt. apply Z.gtb_lt in Hlt. rewrite Hlt. reflexivity.
Qed.

Lemma ffmpeg_size_checks_witness :
  max_file_size_or_0 Fixtures.cfg0 < Z.of_nat (length Fixtures.big_mp4_bytes) /\
  extract_metadata Fixtures.env0 Fixtures.cfg0 Fixtures.big_mp4_bytes = ([], inl ValueError).
Proof.
  split; [vm_compute; reflexivity|].
  apply (ffmpeg_size_checks Fixtures.env0 Fixtures.cfg0 Fixtures.big_mp4_bytes (u "mp4") []).
  vm_compute. reflexivity.
Defined.

(** ** [PreprocessWorker.preprocess] *)

(** When the task limit admits the packet, [preprocess] leaves the other
    event ids of the task set as they were and removes the packet's own id,
    even one that another task had added; the queue is either unchanged or
    gains this packet at its end, the latter only when the command handler
    returned a truthy result. *)
Theorem preprocess_admitted_effect cfg handle st p :
  Dispatch.is_allowed cfg (Dispatch.set_add (Dispatch.event_id p) (Dispatch.preprocess_tasks st)) = true ->
  (forall x, In x (Dispatch.preprocess_tasks (Dispatch.preprocess cfg handle st p)) <->
             In x (Dispatch.preprocess_tasks st) /\ x <> Dispatch.event_id p) /\
  (Dispatch.event_queue (Dispatch.preprocess cfg handle st p) = Dispatch.event_queue st \/
   (Dispatch.event_queue (Dispatch.preprocess cfg handle st p) = Dispatch.event_queue st ++ [p] /\
    handle p = inr true)).
Proof.
  intros Ha. unfold Dispatch.preprocess. rewrite Ha. simpl. split.
  - intros x. unfold Dispatch.set_discard, Dispatch.set_add. rewrite filter_In.
    rewrite negb_true_iff.
    split.
    + intros [Hin Hne]. split.
      * destruct (existsb _ _); [exact Hin|].
        destruct Hin as [<- | Hin]; [rewrite pystr_eqb_refl in Hne; discriminate | exact Hin].
      * intros ->. rewrite pystr_eqb_refl in Hne. discriminate.
    + intros [Hin Hne]. split.
      * destruct (existsb _ _); [exact Hin | right; exact Hin].
      * destruct (pystr_eqb (Dispatch.event_id p) x) eqn:Heq; [|reflexivity].
        apply pystr_eqb_eq in Heq. congruence.
  - destruct (handle p) as [ex|[|]] eqn:Hh; [left; reflexivity | | left; reflexivity].
    unfold Dispatch.put_nowait.
    destruct (Dispatch.queue_full _ _); [left; reflexivity | right; split; reflexivity].
Qed.

Lemma preprocess_admitted_effect_witness :
  Dispatch.is_allowed Fixtures.cfg0 (Dispatch.set_add (u "a") []) = true /\
  Dispatch.event_queue (Dispatch.preprocess Fixtures.cfg0 Fixtures.handle_ok
     {| Dispatch.preprocess_tasks := []; Dispatch.event_queue := [] |} (Fixtures.pkt (u "a"))) =
  [Fixtures.pkt (u "a")].
Proof.
  split; [vm_compute; reflexivity|].
  destruct (proj2 (preprocess_admitted_effect Fixtures.cfg0 Fixtures.handle_ok
                     {| Dispatch.preprocess_tasks := []; Dispatch.event_queue := [] |}
                     (Fixtures.pkt (u "a")) ltac:(vm_compute; reflexivity))) as [H | [H _]].
  - vm_compute. reflexivity.
  - exact H.
Defined.

(** ** [_generate_filename] *)

Lemma lstrip_by_hd p s c r : lstrip_by p s = c :: r -> p c = false.
Proof.
  induction s as [|d s IH]; simpl; [discriminate|].
  destruct (p d) eqn:Hd; [exact IH|]. intros H. injection H as <- _. exact Hd.
Qed.

Lemma lstrip_by_suffix p s : exists pre, s = pre ++ lstrip_by p s.
Proof.
  induction s as [|d s [pre IH]]; simpl; [exists []; reflexivity|].
  destruct (p d); [exists (d :: pre); simpl; congruence | exists []; reflexivity].
Qed.

Lemma strip_by_hd p s c r : strip_by p s = c :: r -> p c = false.
Proof.
  unfold strip_by. intros H.
  destruct (lstrip_by_suffix p (rev (lstrip_by p s))) as [pre Hpre].
  apply (f_equal (@rev Z)) in Hpre. rewrite rev_app_distr, rev_involutive in Hpre.
  rewrite H in Hpre. exact (lstrip_by_hd p s c (r ++ rev pre) Hpre).
Qed.

Lemma sub_runs_cons p b c s :
  sub_runs p b (c :: s) =
  if p c then (if b then sub_runs p true s else 95 :: sub_runs p true s)
  else c :: sub_runs p false s.
Proof. reflexivity. Qed.

Lemma sub_runs_no_double b s :
  (forall i, nth_error (sub_runs (Z.eqb 95) b s) i = Some 95 ->
             nth_error (sub_runs (Z.eqb 95) b s) (S i) <> Some 95) /\
  (b = true -> hd_error (sub_runs (Z.eqb 95) b s) <> Some 95).
Proof.
  revert b. induction s as [|c s IH]; intros b.
  - split; [intros [|i]; discriminate | discriminate].
  - rewrite sub_runs_cons. destruct (Z.eqb 95 c) eqn:Hc.
    + destruct b.
      * exact (IH true).
      * split; [|discriminate]. intros [|i] Hi.
        -- cbn [nth_error].
           destruct (sub_runs (Z.eqb 95) true s) as [|d t] eqn:Hs; [discriminate|].
           cbn [nth_error]. intros Hd. apply (proj2 (IH true) eq_refl). rewrite Hs. exact Hd.
        -- exact (proj1 (IH true) i Hi).
    + apply Z.eqb_neq in Hc. split.
      * intros [|i] Hi; cbn [nth_error] in Hi |- *.
        -- injection Hi as Hi. congruence.
        -- exact (proj1 (IH false) i Hi).
      * intros _ H. injection H as H. congruence.
Qed.

(** [_generate_filename] never returns two underscores in a row, and the
    name it returns does not start with an underscore or a dot: the last
    substitution collapses every run of underscores, and [strip("_.")] has
    removed the leading ones before the cut at 255 characters. *)
Theorem generate_filename_shape nfkd m :
  (forall i, nth_error (generate_filename nfkd m) i = Some 95 ->
             nth_error (generate_filename nfkd m) (S i) <> Some 95) /\
  (forall c rest, generate_filename nfkd m = c :: rest -> c <> 95 /\ c <> 46).
Proof.
  split; [apply sub_runs_no_double|].
  intros c rest. unfold generate_filename.
  match goal with |- context [strip_by is_underscore_or_dot ?t] => destruct (strip_by is_underscore_or_dot t) as [|c0 t'] eqn:Hs end.
  - simpl. discriminate.
  - apply strip_by_hd in Hs. unfold is_underscore_or_dot in Hs.
    apply orb_false_iff in Hs as [H95 H46]. rewrite Z.eqb_sym in H95.
    change (firstn 255 (c0 :: t')) with (c0 :: firstn 254 t').
    rewrite sub_runs_cons, H95.
    intros H. injection H as <- _. apply Z.eqb_neq in H95, H46. split; congruence.
Qed.

Lemma generate_filename_shape_witness :
  generate_filename (fun s => s) Fixtures.om_bang = u "Hello!-u-x-1" /\
  (72 <> 95 /\ 72 <> 46).
Proof.
  split; [vm_compute; reflexivity|].
  apply ((proj2 (generate_filename_shape (fun s => s) Fixtures.om_bang)) 72 (u "ello!-u-x-1")).
  vm_compute. reflexivity.
Defined.

(** ** What [_thumbnail_media_controller] runs under [force_audio_only] *)

Lemma Forall_bind {A B} (P : event -> Prop) (m : M A) (k : A -> M B) :
  Forall P (fst m) -> (forall a, snd m = inr a -> Forall P (fst (k a))) ->
  Forall P (fst (bind m k)).
Proof.
  unfold bind. destruct m as [l [ex|a]]; simpl; intros Hm Hk; [exact Hm|].
  specialize (Hk a eq_refl). destruct (k a) as [l' r]. simpl in *.
  apply Forall_app. split; assumption.
Qed.

Lemma Forall_try_except {A} (P : event -> Prop) (m : M A) h :
  Forall P (fst m) -> (forall ex, Forall P (fst (h ex))) -> Forall P (fst (try_except m h)).
Proof.
  unfold try_except. destruct m as [l [ex|a]]; simpl; intros Hm Hh; [|exact Hm].
  specialize (Hh ex). destruct (h ex) as [l' r]. simpl in *.
  apply Forall_app. split; assumption.
Qed.

Lemma stream_chunks_no_ffmpeg w cap total chunks out :
  Forall (fun ev => ev <> EvFfmpeg w) (fst (stream_chunks cap total chunks out)).
Proof.
  revert total out. induction chunks as [|c chunks IH]; intros total out; simpl; [constructor|].
  apply Forall_bind; [constructor; [discriminate | constructor]|]. intros [] _.
  destruct (_ && _); [constructor | apply IH].
Qed.

Lemma client_download_no_ffmpeg e w cfg url pc :
  Forall (fun ev => ev <> EvFfmpeg w) (fst (client_download e cfg url pc)).
Proof.
  unfold client_download. apply Forall_bind.
  { unfold client_download_proxy, get_key.
    destruct (pc_enable_proxy pc); cbv; constructor. }
  intros proxy _. apply Forall_bind.
  { unfold client_download_headers, get_key.
    destruct (pc_enable_custom_user_agent pc) as [[]|];
      [destruct (pc_custom_user_agent pc) as [ua|]; [destruct (truthy_str ua)|]| |];
      cbv; constructor. }
  intros headers _. generalize 1%nat max_retries. intros att n. revert att.
  induction n as [|n IH]; intros att; simpl; [constructor|].
  apply Forall_bind.
  - unfold client_download_attempt. apply Forall_try_except; [|intros; constructor].
    apply Forall_bind; [constructor; [discriminate | constructor]|]. intros [] _.
    destruct (http_get e url proxy headers att) as [status chunks|]; [|constructor].
    destruct (negb (status =? 200)); [constructor|].
    apply Forall_bind; [apply stream_chunks_no_ffmpeg | intros; constructor].
  - intros r _. destruct r; [constructor | apply IH |].
    apply Forall_bind; [constructor; [discriminate | constructor] | intros; apply IH].
Qed.

Lemma get_mimetype_events e data : fst (get_mimetype e data) = [].
Proof. unfold get_mimetype. destruct (split_once 47 (magic_mimetype e data)) as [[]|]; reflexivity. Qed.

Lemma post_process_no_frame e cfg data pc modifier :
  Forall (fun ev => ev <> EvFfmpeg (u "extract_thumbnail"))
    (fst (post_process e cfg data pc modifier)).
Proof.
  unfold post_process. apply Forall_try_except; [|intros; constructor].
  apply Forall_bind; [rewrite get_mimetype_events; constructor|]. intros [[mime sub] ty] _.
  apply Forall_bind.
  - destruct pc as [pc|]; [|constructor].
    repeat match goal with |- context [if ?b then _ else _] => destruct b end; constructor.
  - intros d _. apply Forall_bind; [|intros; constructor].
    unfold extract_metadata. destruct (negb (validate_file_size cfg d)); [constructor|].
    apply Forall_bind; [constructor; [intros H; inversion H | constructor]|].
    intros [] _. destruct (probe_bytes e d); constructor.
Qed.

Lemma create_media_object_events e stream om fm : fst (create_media_object e stream om fm) = [].
Proof.
  unfold create_media_object, bind. destruct (get_mimetype e stream) as [l r] eqn:Hg.
  pose proof (get_mimetype_events e stream) as H. rewrite Hg in H. simpl in H. subst l.
  destruct r as [ex|[[mt ext] ty]]; [reflexivity|].
  destruct (om_origin om); destruct (pystr_eqb _ (u "audio")); reflexivity.
Qed.

(** Under [force_audio_only], [_thumbnail_media_controller] never asks
    ffmpeg for a frame of the primary media: the fetch of the metadata
    thumbnail URL is all it may do. *)
Theorem thumbnail_force_audio_no_frame e cfg primary pc modifier :
  is_force_audio_only modifier = true ->
  Forall (fun ev => ev <> EvFfmpeg (u "extract_thumbnail"))
    (fst (thumbnail_media_controller e cfg primary pc modifier)).
Proof.
  intros Hf. unfold thumbnail_media_controller. apply Forall_bind.
  - destruct (mi_origin (mf_metadata primary)), (mi_thumbnail_url (mf_metadata primary)) as [turl|];
      try constructor.
    destruct (negb (truthy_str turl)); [constructor|].
    apply Forall_bind.
    + unfold download_simple_media. apply Forall_try_except; [|intros; constructor].
      apply Forall_bind; [apply client_download_no_ffmpeg | intros; constructor].
    + intros [data|] _; [|constructor].
      destruct (negb (truthy_bytes data)); [constructor|].
      apply Forall_bind; [apply post_process_no_frame|].
      intros [[d fm]|] _; [|constructor].
      apply Forall_bind; [unfold process_thumbnail_media; rewrite create_media_object_events; constructor|].
      intros; constructor.
  - intros first _. destruct first; [constructor|]. rewrite Hf. constructor.
Qed.

Lemma thumbnail_force_audio_no_frame_witness :
  is_force_audio_only (Some (u "force_audio_only")) = true /\
  Forall (fun ev => ev <> EvFfmpeg (u "extract_thumbnail"))
    (fst (thumbnail_media_controller Fixtures.env_badconv Fixtures.cfg0
            {| mf_filename := u "v.mp4"; mf_stream := Fixtures.mp4_bytes;
               mf_metadata := {| mi_url := Fixtures.video_url; mi_media_type := u "video";
                 mi_origin := OSimple; mi_id := None; mi_mimetype := u "video/mp4";
                 mi_thumbnail_url := None; mi_title := None; mi_uploader := None;
                 mi_extractor := None; mi_ext := u "mp4"; mi_duration := 0; mi_width := 1;
                 mi_height := 1; mi_size := 6; mi_meta_size := None;
                 mi_meta_duration := None |} |}
            Fixtures.pc_direct (Some (u "force_audio_only")))).
Proof.
  split; [reflexivity|]. apply thumbnail_force_audio_no_frame. reflexivity.
Defined.

